(** * Notification actions of the conferencing client

    A shallow embedding of [react/features/notifications/actions.js] and of
    the timer part of the notifications middleware, together with the
    properties of the notification lifecycle that the specification states.

    JavaScript values are modelled as a tree type; the payload object handed
    to [showNotification] lives in a heap of mutable objects, so that writes
    to it are seen by every holder of the reference.  Exceptions are a sum
    type threaded through a small state-and-error monad. *)

From Stdlib Require Import ZArith String Ascii List Bool DecimalString.
From stdpp Require Import base option gmap strings list.

Set Warnings "-register-all".
Local Open Scope string_scope.
Local Open Scope Z_scope.

(** ** JavaScript values *)

(** Numbers are restricted to integers: the code under study only tests
    numbers for truthiness and passes them on. *)
Inductive JsVal : Type :=
| JUndefined
| JNull
| JBool (b : bool)
| JNum (z : Z)
| JStr (s : string)
| JObj (fields : list (string * JsVal))
| JArr (items : list JsVal).

(** The exceptions that the code can raise. *)
Inductive Error : Type :=
| TypeError
| SyntaxError.

(** [ToBoolean]. *)
Definition truthy (v : JsVal) : bool :=
  match v with
  | JUndefined | JNull => false
  | JBool b => b
  | JNum z => negb (z =? 0)
  | JStr s => negb (String.eqb s "")
  | JObj _ | JArr _ => true
  end.

(** [v == null], true of [null] and [undefined] only. *)
Definition nullish (v : JsVal) : bool :=
  match v with
  | JUndefined | JNull => true
  | _ => false
  end.

(** [v === "s"] for a string literal [s]. *)
Definition is_str (v : JsVal) (s : string) : bool :=
  match v with
  | JStr t => String.eqb t s
  | _ => false
  end.

(** [v === true]. *)
Definition is_true (v : JsVal) : bool :=
  match v with
  | JBool true => true
  | _ => false
  end.

(** [a ?? b]. *)
Definition coalesce (a b : JsVal) : JsVal :=
  if nullish a then b else a.

(** Own-property lookup in an object literal; the first binding wins, and
    [assoc_set] keeps keys unique. *)
Fixpoint assoc_get (k : string) (fs : list (string * JsVal)) : JsVal :=
  match fs with
  | [] => JUndefined
  | (k', v) :: fs' => if String.eqb k k' then v else assoc_get k fs'
  end.

Fixpoint assoc_set (k : string) (v : JsVal) (fs : list (string * JsVal))
  : list (string * JsVal) :=
  match fs with
  | [] => [(k, v)]
  | (k', v') :: fs' =>
      if String.eqb k k' then (k, v) :: fs' else (k', v') :: assoc_set k v fs'
  end.

(** [v?.k]: [undefined] on [null] and [undefined], the own property of an
    object, and [undefined] on every other value (none of the property names
    read by the code exists on a primitive or array prototype). *)
Definition opt_member (v : JsVal) (k : string) : JsVal :=
  match v with
  | JObj fs => assoc_get k fs
  | _ => JUndefined
  end.

(** [v.k]: as [v?.k], except that it throws on [null] and [undefined]. *)
Definition member (v : JsVal) (k : string) : Error + JsVal :=
  if nullish v then inl TypeError else inr (opt_member v k).

(** [Array.prototype.includes] compares with SameValueZero: equality on
    primitives, identity on objects (a tree never is the identical object). *)
Definition same_value_zero (a b : JsVal) : bool :=
  match a, b with
  | JUndefined, JUndefined => true
  | JNull, JNull => true
  | JBool x, JBool y => Bool.eqb x y
  | JNum x, JNum y => x =? y
  | JStr x, JStr y => String.eqb x y
  | _, _ => false
  end.

Definition includes (xs : list JsVal) (v : JsVal) : bool :=
  existsb (same_value_zero v) xs.

(** ** Text of values: [ToString] and a reader for JSON text *)

Definition Z_to_string (z : Z) : string :=
  NilZero.string_of_int (Z.to_int z).

Definition join_comma (parts : list string) : string :=
  match parts with
  | [] => ""
  | p :: ps => fold_left (fun acc q => String.append acc (String.append "," q)) ps p
  end.

(** [ToString]: arrays join their elements with commas, [null] and
    [undefined] elements giving the empty text. *)
Fixpoint ToString (v : JsVal) : string :=
  match v with
  | JUndefined => "undefined"
  | JNull => "null"
  | JBool true => "true"
  | JBool false => "false"
  | JNum z => Z_to_string z
  | JStr s => s
  | JObj _ => "[object Object]"
  | JArr xs =>
      join_comma
        (List.map (fun x => if nullish x then "" else ToString x) xs)
  end.

Definition is_ws (c : ascii) : bool :=
  match c with
  | " "%char | "009"%char | "010"%char | "013"%char => true
  | _ => false
  end.

Fixpoint skip_ws (s : string) : string :=
  match s with
  | String c r => if is_ws c then skip_ws r else s
  | EmptyString => s
  end.

Definition digit_of (c : ascii) : option Z :=
  let n := Z.of_nat (nat_of_ascii c) in
  if (48 <=? n) && (n <=? 57) then Some (n - 48) else None.

Fixpoint read_digits (acc : Z) (s : string) : Z * string :=
  match s with
  | String c r =>
      match digit_of c with
      | Some d => read_digits (10 * acc + d) r
      | None => (acc, s)
      end
  | EmptyString => (acc, s)
  end.

(** An integer literal; a fraction or exponent part is outside the subset
    this reader covers and is rejected. *)
Definition read_number (s : string) : option (Z * string) :=
  let '(neg, body) :=
    match s with
    | String "-"%char r => (true, r)
    | _ => (false, s)
    end in
  match body with
  | String c _ =>
      match digit_of c with
      | None => None
      | Some _ =>
          let '(n, rest) := read_digits 0 body in
          match rest with
          | String "."%char _ | String "e"%char _ | String "E"%char _ => None
          | _ => Some (if neg then - n else n, rest)
          end
      end
  | EmptyString => None
  end.

(** The characters of a string literal up to its closing quote; escape
    sequences are outside the subset and are rejected. *)
Fixpoint read_string_body (s : string) : option (string * string) :=
  match s with
  | EmptyString => None
  | String "034"%char r => Some (EmptyString, r)
  | String "092"%char _ => None
  | String c r =>
      match read_string_body r with
      | Some (t, rest) => Some (String c t, rest)
      | None => None
      end
  end.

Definition strip_prefix (p s : string) : option string :=
  if String.prefix p s
  then Some (String.substring (String.length p)
                           (String.length s - String.length p)%nat s)
  else None.

Definition read_literal (s : string) : option (JsVal * string) :=
  match strip_prefix "true" s with
  | Some r => Some (JBool true, r)
  | None =>
  match strip_prefix "false" s with
  | Some r => Some (JBool false, r)
  | None =>
  match strip_prefix "null" s with
  | Some r => Some (JNull, r)
  | None =>
  match read_number s with
  | Some (n, r) => Some (JNum n, r)
  | None => None
  end end end end.

(** What the reader expects next: a value, the members of an object after
    its opening brace, or the elements of an array after its bracket. *)
Inductive Expect : Type :=
| AValue
| Members (acc : list (string * JsVal))
| Elements (acc : list JsVal).

(** A member given twice keeps its last value, as [JSON.parse] does. *)
Fixpoint read_json (fuel : nat) (e : Expect) (s : string)
  : option (JsVal * string) :=
  match fuel with
  | O => None
  | S f =>
      let s := skip_ws s in
      match e with
      | AValue =>
          match s with
          | String "{"%char r =>
              match skip_ws r with
              | String "}"%char r' => Some (JObj [], r')
              | _ => read_json f (Members []) r
              end
          | String "["%char r =>
              match skip_ws r with
              | String "]"%char r' => Some (JArr [], r')
              | _ => read_json f (Elements []) r
              end
          | String "034"%char r =>
              match read_string_body r with
              | Some (t, rest) => Some (JStr t, rest)
              | None => None
              end
          | _ => read_literal s
          end
      | Members acc =>
          match s with
          | String "034"%char r =>
              match read_string_body r with
              | Some (k, rest) =>
                  match skip_ws rest with
                  | String ":"%char rest1 =>
                      match read_json f AValue rest1 with
                      | Some (v, rest2) =>
                          let acc' := assoc_set k v acc in
                          match skip_ws rest2 with
                          | String ","%char r2 => read_json f (Members acc') r2
                          | String "}"%char r2 => Some (JObj acc', r2)
                          | _ => None
                          end
                      | None => None
                      end
                  | _ => None
                  end
              | None => None
              end
          | _ => None
          end
      | Elements acc =>
          match read_json f AValue s with
          | Some (v, rest) =>
              match skip_ws rest with
              | String ","%char r2 => read_json f (Elements (acc ++ [v])) r2
              | String "]"%char r2 => Some (JArr (acc ++ [v]), r2)
              | _ => None
              end
          | None => None
          end
      end
  end.

(** A reader for JSON text covering objects, arrays, integer numbers, the
    three literals and strings without escapes; [None] is a [SyntaxError].
    It instantiates the [JSON.parse] parameter of the development at concrete
    inputs. *)
Definition read_json_text (s : string) : option JsVal :=
  match read_json (2 * String.length s + 2)%nat AValue s with
  | Some (v, rest) =>
      match skip_ws rest with
      | EmptyString => Some v
      | _ => None
      end
  | None => None
  end.

(** [JSON.parse(v)] first converts its argument to text. *)
Definition json_parse_text (v : JsVal) : option JsVal :=
  read_json_text (ToString v).


(** The examples below write JSON text with an apostrophe where the text has
    a double quote; [json] puts the double quotes back. *)
Fixpoint json (s : string) : string :=
  match s with
  | EmptyString => EmptyString
  | String "'"%char r => String "034"%char (json r)
  | String c r => String c (json r)
  end.


(** ** The store, the heap of payload objects and the effects *)

(** A payload is handed over either as a primitive value or as a reference
    to a mutable object. *)
Inductive Prim : Type :=
| PUndefined
| PNull
| PBool (b : bool)
| PNum (z : Z)
| PStr (s : string).

Inductive Payload : Type :=
| ByValue (p : Prim)
| ByRef (l : positive).

Definition prim_val (p : Prim) : JsVal :=
  match p with
  | PUndefined => JUndefined
  | PNull => JNull
  | PBool b => JBool b
  | PNum z => JNum z
  | PStr s => JStr s
  end.

Definition payload_truthy (p : Payload) : bool :=
  match p with
  | ByValue v => truthy (prim_val v)
  | ByRef _ => true
  end.

(** Modelled from the spec: [MEDIA_TYPE] of [base/media], the media-type
    selector of a mute command; [hideNotification] only uses AUDIO. *)
Inductive MediaType : Type :=
| AUDIO
| VIDEO.

(** What [dispatch] can be given: the plain actions of this feature and the
    two actions of other features that [hideNotification] issues
    ([muteLocal] of the video menu and [appNavigate] of the app, kept as
    they are called). *)
Inductive Action : Type :=
| SHOW_NOTIFICATION (props : Payload) (timeout : JsVal) (uid : JsVal)
| HIDE_NOTIFICATION (uid : JsVal) (conference : JsVal)
| CLEAR_NOTIFICATIONS
| SET_NOTIFICATIONS_ENABLED (enabled : bool)
| muteLocal (enable : JsVal) (mediaType : MediaType)
| appNavigate (uri : JsVal).

(** The module-level state of [actions.js] and what the thunks act on:
    the heap of objects, the actions that reached the store (oldest first),
    the promise reactions still pending, and the two batch buffers. *)
Record World : Type := mkWorld {
  heap : gmap positive (gmap string JsVal);
  dispatched : list Action;
  reactions : list Action;
  joinedParticipantsNames : list string;
  leftParticipantsNames : list string
}.

Definition set_heap (h : gmap positive (gmap string JsVal)) (w : World) : World :=
  mkWorld h (dispatched w) (reactions w)
          (joinedParticipantsNames w) (leftParticipantsNames w).

Definition set_dispatched (d : list Action) (w : World) : World :=
  mkWorld (heap w) d (reactions w)
          (joinedParticipantsNames w) (leftParticipantsNames w).

Definition set_reactions (r : list Action) (w : World) : World :=
  mkWorld (heap w) (dispatched w) r
          (joinedParticipantsNames w) (leftParticipantsNames w).

Definition set_joined (ns : list string) (w : World) : World :=
  mkWorld (heap w) (dispatched w) (reactions w) ns (leftParticipantsNames w).

Definition set_left (ns : list string) (w : World) : World :=
  mkWorld (heap w) (dispatched w) (reactions w) (joinedParticipantsNames w) ns.

(** The object behind a reference (the empty object if none was stored),
    one of its properties, and the heap after the object was replaced. *)
Definition object_at (l : positive) (w : World) : gmap string JsVal :=
  default ∅ (heap w !! l).

Definition field (l : positive) (k : string) (w : World) : JsVal :=
  default JUndefined (object_at l w !! k).

Definition store_object (l : positive) (o : gmap string JsVal) (w : World) : World :=
  set_heap (<[l := o]> (heap w)) w.

Arguments object_at : simpl never.
Arguments field : simpl never.
Arguments store_object : simpl never.

(** A computation either throws or returns, and leaves a world behind in
    both cases. *)
Definition M (A : Type) : Type := World -> World * (Error + A).

#[global] Instance M_ret : MRet M := fun A a w => (w, inr a).

#[global] Instance M_bind : MBind M := fun A B k m w =>
  match m w with
  | (w', inl e) => (w', inl e)
  | (w', inr a) => k a w'
  end.

Definition lift {A : Type} (r : Error + A) : M A := fun w => (w, r).

(** [props.k] *)
Definition get_prop (props : Payload) (k : string) : M JsVal := fun w =>
  match props with
  | ByValue PUndefined | ByValue PNull => (w, inl TypeError)
  | ByValue _ => (w, inr JUndefined)
  | ByRef l => (w, inr (field l k w))
  end.

(** [props.k = v]; module code is strict, so that creating a property on a
    primitive throws. *)
Definition set_prop (props : Payload) (k : string) (v : JsVal) : M unit := fun w =>
  match props with
  | ByValue _ => (w, inl TypeError)
  | ByRef l => (store_object l (<[k := v]> (object_at l w)) w, inr tt)
  end.

(** A default parameter [props = {}]: a fresh empty object when the
    argument is [undefined]. *)
Definition default_props (props : Payload) : M Payload := fun w =>
  match props with
  | ByValue PUndefined =>
      let l := fresh (dom (heap w)) in
      (store_object l ∅ w, inr (ByRef l))
  | _ => (w, inr props)
  end.

(** An object literal: a fresh object with the given properties. *)
Definition new_object (o : gmap string JsVal) : M Payload := fun w =>
  let l := fresh (dom (heap w)) in
  (store_object l o w, inr (ByRef l)).

(** [dispatch(action)] of a plain action: it reaches the store. *)
Definition dispatch (a : Action) : M unit := fun w =>
  (set_dispatched (dispatched w ++ [a]) w, inr tt).

(** [NOTIFICATION_TIMEOUT] and [NOTIFICATION_TIMEOUT_TYPE] of
    [./constants], whose values the development leaves open. *)
Record TimeoutTable : Type := {
  INSTANT : JsVal;
  SHORT : JsVal;
  MEDIUM : JsVal;
  LONG : JsVal;
  STICKY : JsVal
}.

Record TimeoutTypes : Type := {
  TYPE_SHORT : string;
  TYPE_MEDIUM : string;
  TYPE_LONG : string;
  TYPE_STICKY : string
}.

(** What a thunk reads from outside: [getState()] (the config, the feature
    flag, the conference, the participant count) and the clock. *)
Record Env : Type := {
  enabledFlag : bool;
  notifications : option (list JsVal);
  notificationTimeouts : JsVal;
  conference : JsVal;
  participantCount : Z;
  now : Z
}.

(** The environment under another [notificationTimeouts] configuration. *)
Definition with_timeouts (cfg : JsVal) (env : Env) : Env :=
  {| enabledFlag := enabledFlag env;
     notifications := notifications env;
     notificationTimeouts := cfg;
     conference := conference env;
     participantCount := participantCount env;
     now := now env |}.

(** What [actions.js] imports and this development leaves open: the
    constants of [./constants] and the built-in [JSON.parse] ([None] when it
    throws a [SyntaxError]). *)
Class Imports : Type := {
  NOTIFICATION_TIMEOUT : TimeoutTable;
  NOTIFICATION_TIMEOUT_TYPE : TimeoutTypes;
  SILENT_JOIN_THRESHOLD : Z;
  SILENT_LEFT_THRESHOLD : Z;
  JSON_parse : JsVal -> option JsVal
}.

(** ** [actions.js] *)

Section Actions.
Context {imports : Imports}.

(** [notificationTimeouts?.k ?? fallback] *)
Definition override (notificationTimeouts : JsVal) (k : string) (fallback : JsVal)
  : JsVal :=
  coalesce (opt_member notificationTimeouts k) fallback.

Definition getNotificationTimeout (type : JsVal) (notificationTimeouts : JsVal)
  : JsVal :=
  if is_str type (TYPE_SHORT NOTIFICATION_TIMEOUT_TYPE) then
    override notificationTimeouts "short" (SHORT NOTIFICATION_TIMEOUT)
  else if is_str type (TYPE_MEDIUM NOTIFICATION_TIMEOUT_TYPE) then
    override notificationTimeouts "medium" (MEDIUM NOTIFICATION_TIMEOUT)
  else if is_str type (TYPE_LONG NOTIFICATION_TIMEOUT_TYPE) then
    override notificationTimeouts "long" (LONG NOTIFICATION_TIMEOUT)
  else STICKY NOTIFICATION_TIMEOUT.

Definition clearNotifications : Action := CLEAR_NOTIFICATIONS.

Definition setNotificationsEnabled (enabled : bool) : Action :=
  SET_NOTIFICATIONS_ENABLED enabled.

(** [props.description?.deviceMessageType === s] *)
Definition deviceMessageType_is (props : Payload) (s : string) : M bool :=
  d ← get_prop props "description";
  mret (is_str (opt_member d "deviceMessageType") s).

Definition isAudioMuted (props : Payload) : M JsVal :=
  props ← default_props props;
  paused ← deviceMessageType_is props "PAUSE_SESSION";
  if paused : bool then mret (JBool true) else
  resumed ← deviceMessageType_is props "RESUME_SESSION";
  if resumed : bool then mret (JBool false) else
  mret JNull.

Definition restructureProps (props : Payload) : M Payload :=
  props ← default_props props;
  d ← get_prop props "description";
  if truthy d then
    text ← get_prop props "description";
    parsed ← lift (from_option inr (inl SyntaxError) (JSON_parse text));
    set_prop props "description" parsed;;
    d ← get_prop props "description";
    id ← lift (member d "id");
    messageId ← (if negb (nullish id)
                 then d ← get_prop props "description";
                      mret (opt_member d "id")
                 else mret (JStr "raisAHand"));
    set_prop props "messageId" messageId;;
    d ← get_prop props "description";
    senderInfo ← lift (member d "senderInfo");
    title ← (match senderInfo with
             | JUndefined => mret (JStr "ViCE")
             | _ => d ← get_prop props "description";
                    mret (opt_member (opt_member d "senderInfo") "name")
             end);
    set_prop props "title" title;;
    ended ← deviceMessageType_is props "CONSULTATION_ENDED";
    set_prop props "isEndStream" (JBool ended);;
    muted ← isAudioMuted props;
    set_prop props "isMicMuted" muted;;
    mret props
  else mret props.

(** The eligibility expression, with the grouping that the precedence of
    [&&] over [||] gives it:
    [(enabledFlag && !props.description.handledAt)
      || (ended && sendTo === "clinician")
      || isRaisedHand === true
      || (ended && (!notifications || includes(descriptionKey)
                                   || includes(titleKey)))],
    evaluated left to right with short cuts. *)
Definition shouldDisplay (env : Env) (props : Payload) : M bool :=
  first ← (if enabledFlag env
           then d ← get_prop props "description";
                handledAt ← lift (member d "handledAt");
                mret (negb (truthy handledAt))
           else mret false);
  if first : bool then mret true else
  second ← (ended ← deviceMessageType_is props "CONSULTATION_ENDED";
            if ended : bool
            then d ← get_prop props "description";
                 mret (is_str (opt_member d "sendTo") "clinician")
            else mret false);
  if second : bool then mret true else
  d ← get_prop props "description";
  if is_true (opt_member d "isRaisedHand") then mret true else
  ended ← deviceMessageType_is props "CONSULTATION_ENDED";
  if ended : bool then
    match notifications env with
    | None => mret true
    | Some allowed =>
        descriptionKey ← get_prop props "descriptionKey";
        if includes allowed descriptionKey then mret true else
        titleKey ← get_prop props "titleKey";
        mret (includes allowed titleKey)
    end
  else mret false.

(** The text that replaces the description of a displayed notification. *)
Definition resolveDescription (props : Payload) : M unit :=
  message ← deviceMessageType_is props "MESSAGE";
  if message : bool then
    d ← get_prop props "description";
    content ← lift (member d "content");
    set_prop props "description" content
  else
  ended ← deviceMessageType_is props "CONSULTATION_ENDED";
  if ended : bool then
    set_prop props "description" (JStr "Consulation phase has ended")
  else
  paused ← deviceMessageType_is props "PAUSE_SESSION";
  if paused : bool then
    set_prop props "description" (JStr "Session is paused")
  else
  resumed ← deviceMessageType_is props "RESUME_SESSION";
  if resumed : bool then
    set_prop props "description" (JStr "Session is resumed")
  else
    set_prop props "description" (JStr "Raised a Hand").

(** [showNotification(props, type)] and the run of the thunk it returns. *)
Definition showNotification (env : Env) (props : Payload) (type : JsVal) : M unit :=
  props ← default_props props;
  props ← restructureProps props;
  isMicMuted ← isAudioMuted props;
  if negb (payload_truthy props) then mret tt else
  display ← shouldDisplay env props;
  if display : bool then
    resolveDescription props;;
    uid ← get_prop props "uid";
    dispatch (SHOW_NOTIFICATION props
                (match isMicMuted with
                 | JNull => LONG NOTIFICATION_TIMEOUT
                 | _ => INSTANT NOTIFICATION_TIMEOUT
                 end)
                (if truthy uid then uid else JStr (Z_to_string (now env))))
  else mret tt.

(** An entry of the notification queue, as the reducer keeps it:
    [{ props, timeout, uid }]. *)
Record Notification : Type := {
  n_props : Payload;
  n_timeout : JsVal;
  n_uid : JsVal
}.

(** [Promise.resolve(value).then(() => dispatch(action))] for a value that
    is no thenable: the reaction is queued and runs once the current job has
    returned. *)
Definition then_dispatch (a : Action) : M unit := fun w =>
  (set_reactions (reactions w ++ [a]) w, inr tt).

(** The run of the pending reactions, in the order they were queued. *)
Definition run_reactions (w : World) : World :=
  set_reactions [] (set_dispatched (dispatched w ++ reactions w) w).

(** [hideNotification(uid, notification)] and the run of its thunk;
    [None] is the omitted (or [null]) snapshot. *)
Definition hideNotification (env : Env) (uid : JsVal)
    (notification : option Notification) : M unit :=
  match notification with
  | Some n =>
      isMicMuted ← get_prop (n_props n) "isMicMuted";
      (if negb (nullish isMicMuted)
       then isMicMuted ← get_prop (n_props n) "isMicMuted";
            dispatch (muteLocal isMicMuted AUDIO)
       else mret tt);;
      isEndStream ← get_prop (n_props n) "isEndStream";
      if truthy isEndStream then
        dispatch (HIDE_NOTIFICATION uid (conference env));;
        then_dispatch (appNavigate JUndefined)
      else
        dispatch (HIDE_NOTIFICATION uid (conference env))
  | None => dispatch (HIDE_NOTIFICATION uid (conference env))
  end.

(** [names[i]] *)
Definition name_at (names : list string) (i : nat) : JsVal :=
  from_option JStr JUndefined (names !! i).

Definition get_joined : M (list string) := fun w =>
  (w, inr (joinedParticipantsNames w)).

Definition put_joined (names : list string) : M unit := fun w =>
  (set_joined names w, inr tt).

Definition get_left : M (list string) := fun w =>
  (w, inr (leftParticipantsNames w)).

Definition put_left (names : list string) : M unit := fun w =>
  (set_left names w, inr tt).

(** The props that a flush builds from a batch buffer; [None] is the
    [notificationProps] left [undefined]. *)
Definition batchProps (names : list string) (threePlus two one : string)
  : option (gmap string JsVal) :=
  let count := Z.of_nat (length names) in
  if 3 <=? count then
    Some {[ "titleArguments" := JObj [("name", name_at names 0)];
            "titleKey" := JStr threePlus ]}
  else if count =? 2 then
    Some {[ "titleArguments" := JObj [("first", name_at names 0);
                                      ("second", name_at names 1)];
            "titleKey" := JStr two ]}
  else if negb (count =? 0) then
    Some {[ "titleArguments" := JObj [("name", name_at names 0)];
            "titleKey" := JStr one ]}
  else None.

(** The function wrapped by [throttle] for the joins: one flush.  The
    store runs a dispatched thunk at once, so that
    [dispatch(showNotification(...))] is the run of the thunk, and an
    exception of the thunk leaves the flush before the buffer is reset. *)
Definition _throttledNotifyParticipantConnected (env : Env) : M unit :=
  if participantCount env >? SILENT_JOIN_THRESHOLD then put_joined [] else
  names ← get_joined;
  match batchProps names "notify.connectedThreePlusMembers"
                   "notify.connectedTwoMembers" "notify.connectedOneMember" with
  | Some o =>
      notificationProps ← new_object o;
      showNotification env notificationProps
        (JStr (TYPE_SHORT NOTIFICATION_TIMEOUT_TYPE))
  | None => mret tt
  end;;
  put_joined [].

(** The function wrapped by [throttle] for the leaves: one flush. *)
Definition _throttledNotifyParticipantLeft (env : Env) : M unit :=
  if participantCount env >? SILENT_LEFT_THRESHOLD then put_left [] else
  names ← get_left;
  match batchProps names "notify.leftThreePlusMembers"
                   "notify.leftTwoMembers" "notify.leftOneMember" with
  | Some o =>
      notificationProps ← new_object o;
      showNotification env notificationProps
        (JStr (TYPE_SHORT NOTIFICATION_TIMEOUT_TYPE))
  | None => mret tt
  end;;
  put_left [].

(** The part of [showParticipantJoinedNotification] that runs at once: the
    name is pushed; the flush is left to [throttle]. *)
Definition showParticipantJoinedNotification (displayName : string) : M unit :=
  names ← get_joined;
  put_joined (names ++ [displayName]).

Definition showParticipantLeftNotification (displayName : string) : M unit :=
  names ← get_left;
  put_left (names ++ [displayName]).

(** *** What the thunk of [showNotification] computes, in closed form

    The functions below summarise the straight-line code of the thunk on a
    description value [d] and a payload object [o]; the lemmas of the section
    on runs prove that the monadic code computes them. *)

Definition deviceMessageType (d : JsVal) : JsVal :=
  opt_member d "deviceMessageType".

Definition micMuted (d : JsVal) : JsVal :=
  if is_str (deviceMessageType d) "PAUSE_SESSION" then JBool true
  else if is_str (deviceMessageType d) "RESUME_SESSION" then JBool false
  else JNull.

Definition messageIdOf (d : JsVal) : JsVal :=
  if negb (nullish (opt_member d "id")) then opt_member d "id"
  else JStr "raisAHand".

Definition titleOf (d : JsVal) : JsVal :=
  match opt_member d "senderInfo" with
  | JUndefined => JStr "ViCE"
  | _ => opt_member (opt_member d "senderInfo") "name"
  end.

(** The payload object after [restructureProps] parsed its description
    into [d]. *)
Definition restructured (o : gmap string JsVal) (d : JsVal) : gmap string JsVal :=
  <["isMicMuted" := micMuted d]>
    (<["isEndStream" := JBool (is_str (deviceMessageType d) "CONSULTATION_ENDED")]>
       (<["title" := titleOf d]>
          (<["messageId" := messageIdOf d]>
             (<["description" := d]> o)))).

Definition allowListed (env : Env) (o : gmap string JsVal) : bool :=
  match notifications env with
  | None => true
  | Some allowed =>
      includes allowed (default JUndefined (o !! "descriptionKey"))
      || includes allowed (default JUndefined (o !! "titleKey"))
  end.

(** The value of [shouldDisplay] when the description [d] is neither
    [null] nor [undefined]. *)
Definition eligible (env : Env) (o : gmap string JsVal) (d : JsVal) : bool :=
  (enabledFlag env && negb (truthy (opt_member d "handledAt")))
  || (is_str (deviceMessageType d) "CONSULTATION_ENDED"
      && is_str (opt_member d "sendTo") "clinician")
  || is_true (opt_member d "isRaisedHand")
  || (is_str (deviceMessageType d) "CONSULTATION_ENDED" && allowListed env o).

Definition displayText (d : JsVal) : JsVal :=
  if is_str (deviceMessageType d) "MESSAGE" then opt_member d "content"
  else if is_str (deviceMessageType d) "CONSULTATION_ENDED"
       then JStr "Consulation phase has ended"
  else if is_str (deviceMessageType d) "PAUSE_SESSION" then JStr "Session is paused"
  else if is_str (deviceMessageType d) "RESUME_SESSION" then JStr "Session is resumed"
  else JStr "Raised a Hand".

Definition timeoutFor (d : JsVal) : JsVal :=
  match micMuted d with
  | JNull => LONG NOTIFICATION_TIMEOUT
  | _ => INSTANT NOTIFICATION_TIMEOUT
  end.

Definition uidFor (env : Env) (o : gmap string JsVal) : JsVal :=
  let uid := default JUndefined (o !! "uid") in
  if truthy uid then uid else JStr (Z_to_string (now env)).

(** The description that the eligibility test and the content resolution
    see: the parsed form of a truthy description, the description itself
    otherwise. *)
Definition seenDescription (o : gmap string JsVal) : JsVal :=
  let d := default JUndefined (o !! "description") in
  if truthy d then default JUndefined (JSON_parse d) else d.

(** The payload object as the eligibility test finds it. *)
Definition prepared (o : gmap string JsVal) : gmap string JsVal :=
  if truthy (default JUndefined (o !! "description"))
  then restructured o (seenDescription o)
  else o.

(** The whole run on a payload object [o] stored at [l]. *)
Definition shown (env : Env) (l : positive) (o : gmap string JsVal) (d : JsVal)
    (w : World) : World * (Error + unit) :=
  if eligible env o d then
    (set_dispatched
       (dispatched w ++ [SHOW_NOTIFICATION (ByRef l) (timeoutFor d) (uidFor env o)])
       (store_object l (<["description" := displayText d]> o) w),
     inr tt)
  else (store_object l o w, inr tt).

Definition showNotification_on_object (env : Env) (l : positive)
    (o : gmap string JsVal) (w : World) : World * (Error + unit) :=
  let d := default JUndefined (o !! "description") in
  if truthy d then
    match JSON_parse d with
    | None => (w, inl SyntaxError)
    | Some parsed =>
        if nullish parsed
        then (store_object l (<["description" := parsed]> o) w, inl TypeError)
        else shown env l (restructured o parsed) parsed w
    end
  else if enabledFlag env then
    if nullish d then (w, inl TypeError) else shown env l o d w
  else (w, inr tt).

End Actions.

(** ** The timers of the middleware *)

(** The [timers] map of the middleware together with the timers that
    [setTimeout] has armed: each armed timer, under its handle, holds the uid
    that its callback hides.  Handles are handed out in increasing order. *)
Record TimerState : Type := mkTimerState {
  timers : gmap string nat;
  armed : gmap nat string;
  next_handle : nat;
  world : World
}.

Section Middleware.

(** [createTimeoutId(notification, dispatch)], the uid being a string. *)
Definition createTimeoutId (timeout : JsVal) (uid : string) (s : TimerState)
  : TimerState :=
  if truthy timeout then
    let timerID := next_handle s in
    mkTimerState (<[uid := timerID]> (timers s))
                 (<[timerID := uid]> (armed s))
                 (S timerID)
                 (world s)
  else s.






Definition initial (w : World) : TimerState :=
  mkTimerState ∅ ∅ 0 w.




End Middleware.

(** ** Concrete imports for the examples *)

(** Values for the open constants, used where a statement is evaluated at a
    concrete input. *)
Definition sample_timeouts : TimeoutTable :=
  {| INSTANT := JNum 1000; SHORT := JNum 2500; MEDIUM := JNum 5000;
     LONG := JNum 10000; STICKY := JBool false |}.

Definition sample_types : TimeoutTypes :=
  {| TYPE_SHORT := "short"; TYPE_MEDIUM := "medium"; TYPE_LONG := "long";
     TYPE_STICKY := "sticky" |}.

Definition sample_imports : Imports :=
  {| NOTIFICATION_TIMEOUT := sample_timeouts;
     NOTIFICATION_TIMEOUT_TYPE := sample_types;
     SILENT_JOIN_THRESHOLD := 30;
     SILENT_LEFT_THRESHOLD := 30;
     JSON_parse := json_parse_text |}.

Definition sample_env (enabled : bool) : Env :=
  {| enabledFlag := enabled; notifications := None;
     notificationTimeouts := JUndefined; conference := JStr "room";
     participantCount := 2; now := 1700000000000 |}.

Definition empty_world : World := mkWorld ∅ [] [] [] [].

(** A world whose heap holds one object, at address 1. *)
Definition world_with (o : gmap string JsVal) : World :=
  mkWorld {[ 1%positive := o ]} [] [] [] [].

(** Payloads of the examples: a pause request with a uid, a raised hand, a
    message that was handled already, an empty description object, and the
    props of a one-member join notification. *)
Definition paused_payload : gmap string JsVal :=
  {[ "description" :=
       JStr (json "{'deviceMessageType':'PAUSE_SESSION','id':'m1'}");
     "uid" := JStr "n1" ]}.

Definition raised_hand_payload : gmap string JsVal :=
  {[ "description" := JStr (json "{'isRaisedHand':true}") ]}.

Definition handled_payload : gmap string JsVal :=
  {[ "description" := JStr (json "{'handledAt':1}") ]}.

Definition plain_payload : gmap string JsVal :=
  {[ "description" := JStr "{}" ]}.

(** An empty description object together with a uid. *)
Definition falsy_uid_payload (uid : JsVal) : gmap string JsVal :=
  {[ "description" := JStr "{}"; "uid" := uid ]}.

Definition join_payload : gmap string JsVal :=
  {[ "titleArguments" := JObj [("name", JStr "A")];
     "titleKey" := JStr "notify.connectedOneMember" ]}.

(** The environment of the examples with a short override configured. *)
Definition override_env : Env :=
  with_timeouts (JObj [("short", JNum 1)]) (sample_env true).

(** ** The rest of [actions.js]: the notification variants *)

(** [NOTIFICATION_TYPE] and [NOTIFICATION_ICON] of [./constants], as far
    as the variants use them; their values are left open. *)
Class Looks : Type := {
  NOTIFICATION_TYPE_ERROR : JsVal;
  NOTIFICATION_TYPE_WARNING : JsVal;
  NOTIFICATION_TYPE_NORMAL : JsVal;
  NOTIFICATION_ICON_MESSAGE : JsVal
}.

(** The own properties that a string spreads: its characters under their
    indices. *)
Fixpoint string_entries (i : nat) (s : string) : gmap string JsVal :=
  match s with
  | EmptyString => ∅
  | String c r =>
      <[Z_to_string (Z.of_nat i) := JStr (String c EmptyString)]>
        (string_entries (S i) r)
  end.

(** What [...props] copies: the properties of an object, the characters of
    a string, nothing of any other primitive ([null] and [undefined]
    included). *)
Definition spread (props : Payload) (w : World) : gmap string JsVal :=
  match props with
  | ByRef l => object_at l w
  | ByValue (PStr s) => string_entries 0 s
  | ByValue _ => ∅
  end.

(** [{ ...props, k1: v1, ..., kn: vn }]: a fresh object; a later property
    replaces an earlier one of the same name. *)
Definition object_literal (props : Payload) (extra : list (string * JsVal))
  : M Payload := fun w =>
  new_object (foldl (fun o kv => <[kv.1 := kv.2]> o) (spread props w) extra) w.

(** The environment under another allow-list configuration. *)
Definition with_notifications (allowed : option (list JsVal)) (env : Env) : Env :=
  {| enabledFlag := enabledFlag env;
     notifications := allowed;
     notificationTimeouts := notificationTimeouts env;
     conference := conference env;
     participantCount := participantCount env;
     now := now env |}.

Section Variants.
Context {imports : Imports} {looks : Looks}.

Definition showErrorNotification (env : Env) (props : Payload) (type : JsVal)
  : M unit :=
  copy ← object_literal props [("appearance", NOTIFICATION_TYPE_ERROR)];
  showNotification env copy type.

Definition showWarningNotification (env : Env) (props : Payload) (type : JsVal)
  : M unit :=
  copy ← object_literal props [("appearance", NOTIFICATION_TYPE_WARNING)];
  showNotification env copy type.

Definition showMessageNotification (env : Env) (props : Payload) (type : JsVal)
  : M unit :=
  copy ← object_literal props
           [("concatText", JBool true);
            ("titleKey", JStr "notify.chatMessages");
            ("appearance", NOTIFICATION_TYPE_NORMAL);
            ("icon", NOTIFICATION_ICON_MESSAGE)];
  showNotification env copy type.

(** A burst of join events: the part of each
    [showParticipantJoinedNotification] call that runs at once, in the order
    of the calls. *)
Fixpoint joinBurst (displayNames : list string) : M unit :=
  match displayNames with
  | [] => mret tt
  | displayName :: rest =>
      showParticipantJoinedNotification displayName;;
      joinBurst rest
  end.

Fixpoint leftBurst (displayNames : list string) : M unit :=
  match displayNames with
  | [] => mret tt
  | displayName :: rest =>
      showParticipantLeftNotification displayName;;
      leftBurst rest
  end.

End Variants.

(** ** The rest of the middleware *)

(** [a === b] on the values modelled: equality of primitives; two trees are
    never the identical object. *)
Definition strict_equal (a b : JsVal) : bool := same_value_zero a b.

(** [PARTICIPANT_ROLE.MODERATOR] and [RAISE_HAND_NOTIFICATION_ID], whose
    values are left open. *)
Class MiddlewareImports : Type := {
  PARTICIPANT_ROLE_MODERATOR : JsVal;
  RAISE_HAND_NOTIFICATION_ID : JsVal
}.

(** What the middleware reads from the state: the config entry
    [disableModeratorIndicator], [getLocalParticipant(state)?.id], and
    [getParticipantById(state, id)?.role] for an id. *)
Record ParticipantsState : Type := {
  disableModeratorIndicator : JsVal;
  localParticipantId : JsVal;
  roleOf : JsVal -> JsVal
}.

(** The actions that the middleware tells apart; [participant] of a
    PARTICIPANT_UPDATED action is given by its id and role. *)
Inductive StoreAction : Type :=
| PARTICIPANT_UPDATED (id role : JsVal)
| PARTICIPANTS_PANE_OPEN
| OTHER_ACTION (type : string).

Section MiddlewareActions.
Context {imports : Imports} {middlewareImports : MiddlewareImports}.

(** The registered middleware on one action; it returns the action that it
    hands to [next], and an exception leaves it before [next] is called. *)
Definition middleware (env : Env) (state : ParticipantsState) (action : StoreAction)
  : M StoreAction :=
  match action with
  | PARTICIPANT_UPDATED id role =>
      if truthy (disableModeratorIndicator state) then mret action else
      if negb (strict_equal (localParticipantId state) id) then mret action else
      let oldRole := roleOf state id in
      (if truthy oldRole
          && negb (strict_equal oldRole role)
          && strict_equal role PARTICIPANT_ROLE_MODERATOR
       then notificationProps ← new_object {[ "titleKey" := JStr "notify.moderator" ]};
            showNotification env notificationProps
              (JStr (TYPE_SHORT NOTIFICATION_TIMEOUT_TYPE))
       else mret tt);;
      mret action
  | PARTICIPANTS_PANE_OPEN =>
      hideNotification env RAISE_HAND_NOTIFICATION_ID None;;
      mret action
  | OTHER_ACTION _ => mret action
  end.

End MiddlewareActions.

(** Sample values for the further constants. *)
Definition sample_looks : Looks :=
  {| NOTIFICATION_TYPE_ERROR := JStr "error";
     NOTIFICATION_TYPE_WARNING := JStr "warning";
     NOTIFICATION_TYPE_NORMAL := JStr "normal";
     NOTIFICATION_ICON_MESSAGE := JStr "message" |}.

Definition sample_middleware_imports : MiddlewareImports :=
  {| PARTICIPANT_ROLE_MODERATOR := JStr "moderator";
     RAISE_HAND_NOTIFICATION_ID := JStr "RAISE_HAND_NOTIFICATION" |}.

(** The local participant "me", a plain participant so far. *)
Definition sample_participants : ParticipantsState :=
  {| disableModeratorIndicator := JUndefined;
     localParticipantId := JStr "me";
     roleOf := fun id => if strict_equal id (JStr "me") then JStr "participant"
                         else JUndefined |}.

(** A meeting above the sample thresholds. *)
Definition crowded_env : Env :=
  {| enabledFlag := true; notifications := None;
     notificationTimeouts := JUndefined; conference := JStr "room";
     participantCount := 31; now := 1700000000000 |}.

Definition unparsable_payload : gmap string JsVal :=
  {[ "description" := JStr "not json" ]}.

Definition null_payload : gmap string JsVal :=
  {[ "description" := JStr "null" ]}.

Definition ended_payload : gmap string JsVal :=
  {[ "description" :=
       JStr (json "{'deviceMessageType':'CONSULTATION_ENDED','handledAt':1}") ]}.

(** ** Basic facts about the heap and the effects *)

Lemma object_at_store l o w : object_at l (store_object l o w) = o.
Proof. unfold object_at, store_object; simpl. by rewrite lookup_insert_eq. Qed.

Lemma store_store l o1 o2 w :
  store_object l o2 (store_object l o1 w) = store_object l o2 w.
Proof. unfold store_object, set_heap; simpl. by rewrite insert_insert_eq. Qed.

Lemma field_store l k o w :
  field l k (store_object l o w) = default JUndefined (o !! k).
Proof. unfold field. by rewrite object_at_store. Qed.

Lemma object_at_heap l o w : heap w !! l = Some o -> object_at l w = o.
Proof. unfold object_at. by intros ->. Qed.

Lemma bind_run {A B : Type} (m : M A) (k : A -> M B) (w : World) :
  (m ≫= k) w =
    match m w with
    | (w', inl e) => (w', inl e)
    | (w', inr a) => k a w'
    end.
Proof. reflexivity. Qed.

Lemma ret_run {A : Type} (a : A) (w : World) :
  (mret a : M A) w = (w, inr a).
Proof. reflexivity. Qed.

(** ** Runs of the thunks on a payload object *)

Ltac run_step :=
  first [ rewrite bind_run | rewrite ret_run ]; simpl;
  rewrite ?field_store, ?object_at_store, ?store_store;
  repeat first [ rewrite lookup_insert_eq
               | rewrite lookup_insert_ne by discriminate ];
  simpl.

(** Runs a monadic term on a world: binds are reduced, reads of the
    description are named by [Hd], and each test met is split in two. *)
Ltac run_cases_with name_reads :=
  repeat first
    [ name_reads
    | rewrite bind_run
    | rewrite ret_run
    | progress simpl
    | match goal with
      | E : ?c = true |- context [?c] => rewrite E
      | E : ?c = false |- context [?c] => rewrite E
      | |- context [if ?c then _ else _] => destruct c eqn:?
      | |- context [match notifications ?env with _ => _ end] =>
          destruct (notifications env)
      end
    | reflexivity ].

Ltac run_cases Hd := run_cases_with ltac:(rewrite <- Hd).

Ltac run_plain := run_cases_with fail.

Section Runs.
Context {imports : Imports}.

Lemma deviceMessageType_is_ref l s w :
  deviceMessageType_is (ByRef l) s w =
    (w, inr (is_str (deviceMessageType (field l "description" w)) s)).
Proof. reflexivity. Qed.

Lemma isAudioMuted_ref l w :
  isAudioMuted (ByRef l) w = (w, inr (micMuted (field l "description" w))).
Proof.
  unfold isAudioMuted, micMuted.
  rewrite bind_run; simpl. rewrite bind_run, deviceMessageType_is_ref.
  destruct (is_str _ "PAUSE_SESSION"); [reflexivity|].
  rewrite bind_run, deviceMessageType_is_ref.
  by destruct (is_str _ "RESUME_SESSION").
Qed.

Lemma restructureProps_ref l w :
  restructureProps (ByRef l) w =
    let o := object_at l w in
    let d := default JUndefined (o !! "description") in
    if truthy d then
      match JSON_parse d with
      | None => (w, inl SyntaxError)
      | Some parsed =>
          if nullish parsed
          then (store_object l (<["description" := parsed]> o) w, inl TypeError)
          else (store_object l (restructured o parsed) w, inr (ByRef l))
      end
    else (w, inr (ByRef l)).
Proof.
  unfold restructureProps.
  rewrite bind_run; simpl. rewrite bind_run; simpl.
  unfold field at 1.
  destruct (truthy (default JUndefined (object_at l w !! "description"))) eqn:Ht;
    [|reflexivity].
  rewrite bind_run; simpl. rewrite bind_run; simpl.
  unfold lift at 1, field at 1.
  destruct (JSON_parse _) as [parsed|]; simpl; [|reflexivity].
  set (o := object_at l w).
  destruct (nullish parsed) eqn:Hn.
  - run_step. run_step. run_step. unfold member. rewrite Hn. reflexivity.
  - run_step. run_step. run_step. unfold member at 1. rewrite Hn.
    unfold restructured, messageIdOf, titleOf.
    rewrite bind_run.
    destruct (negb (nullish (opt_member parsed "id"))) eqn:Hid.
    all: repeat run_step.
    all: unfold member; rewrite Hn.
    all: destruct (opt_member parsed "senderInfo") eqn:Hs.
    all: repeat run_step.
    all: rewrite ?Hs; simpl.
    all: rewrite isAudioMuted_ref; simpl.
    all: repeat run_step.
    all: reflexivity.
Qed.

Lemma shouldDisplay_ref env l w :
  shouldDisplay env (ByRef l) w =
    let d := field l "description" w in
    if enabledFlag env && nullish d then (w, inl TypeError)
    else (w, inr (eligible env (object_at l w) d)).
Proof.
  unfold shouldDisplay, eligible, allowListed, deviceMessageType.
  cbv zeta.
  remember (field l "description" w) as d eqn:Hd.
  fold (field l "descriptionKey" w) (field l "titleKey" w).
  unfold deviceMessageType_is, lift, member.
  run_cases Hd.
Qed.

Lemma resolveDescription_ref l w :
  resolveDescription (ByRef l) w =
    (store_object l
       (<["description" := displayText (field l "description" w)]> (object_at l w))
       w,
     inr tt).
Proof.
  unfold resolveDescription, displayText, deviceMessageType.
  remember (field l "description" w) as d eqn:Hd.
  unfold deviceMessageType_is, lift, member.
  destruct (nullish d) eqn:Hn.
  { destruct d; try discriminate Hn; run_cases Hd. }
  run_cases Hd.
Qed.

Lemma restructured_description o d : restructured o d !! "description" = Some d.
Proof.
  unfold restructured.
  rewrite !lookup_insert_ne by discriminate. apply lookup_insert_eq.
Qed.

Lemma eligible_falsy env o d :
  truthy d = false -> eligible env o d = enabledFlag env.
Proof.
  unfold eligible, deviceMessageType.
  destruct d; simpl; try discriminate; intros _.
  all: by rewrite andb_true_r, !orb_false_r.
Qed.

Lemma showNotification_ref env l type w :
  showNotification env (ByRef l) type w =
    showNotification_on_object env l (object_at l w) w.
Proof.
  unfold showNotification, showNotification_on_object.
  rewrite bind_run; simpl. rewrite bind_run, restructureProps_ref.
  cbv zeta.
  set (o := object_at l w).
  destruct (truthy (default JUndefined (o !! "description"))) eqn:Ht.
  - destruct (JSON_parse _) as [parsed|]; [|reflexivity].
    destruct (nullish parsed) eqn:Hn; [reflexivity|].
    rewrite bind_run, isAudioMuted_ref; simpl.
    rewrite bind_run, shouldDisplay_ref; simpl.
    rewrite field_store, object_at_store, restructured_description; simpl.
    rewrite Hn, andb_false_r. unfold shown.
    destruct (eligible env (restructured o parsed) parsed); [|reflexivity].
    rewrite bind_run, resolveDescription_ref; simpl.
    rewrite field_store, object_at_store, store_store, restructured_description.
    simpl. rewrite bind_run; simpl. rewrite field_store.
    rewrite lookup_insert_ne by discriminate. reflexivity.
  - rewrite bind_run, isAudioMuted_ref; simpl.
    rewrite bind_run, shouldDisplay_ref; simpl.
    fold o. unfold field. fold o.
    set (d := default JUndefined (o !! "description")) in *.
    rewrite (eligible_falsy env o d Ht).
    destruct (enabledFlag env) eqn:He; simpl; [|reflexivity].
    destruct (nullish d) eqn:Hn; simpl; [reflexivity|].
    unfold shown. rewrite (eligible_falsy env o d Ht), He.
    rewrite bind_run, resolveDescription_ref; simpl.
    unfold field at 1. fold o. fold d.
    rewrite bind_run; simpl. rewrite field_store.
    rewrite lookup_insert_ne by discriminate. reflexivity.
Qed.

(** An omitted payload is the call on a fresh empty object. *)
Lemma showNotification_omitted env type w :
  showNotification env (ByValue PUndefined) type w =
    let l := fresh (dom (heap w)) in
    if enabledFlag env
    then (store_object l ∅ w, inl TypeError)
    else (store_object l ∅ w, inr tt).
Proof.
  cbv zeta. set (l := fresh (dom (heap w))).
  assert (Hrun : showNotification env (ByValue PUndefined) type w =
                 showNotification env (ByRef l) type (store_object l ∅ w)).
  { unfold showNotification at 1 2. rewrite !(bind_run (default_props _)).
    reflexivity. }
  rewrite Hrun, showNotification_ref, object_at_store.
  unfold showNotification_on_object. rewrite lookup_empty. simpl.
  by destruct (enabledFlag env).
Qed.

(** A primitive payload other than [undefined]: [null] throws, the other
    falsy values return at the guard, and a truthy primitive has no
    description to read. *)
Lemma showNotification_primitive env p type w :
  p ≠ PUndefined ->
  showNotification env (ByValue p) type w =
    match p with
    | PNull => (w, inl TypeError)
    | _ => if truthy (prim_val p) && enabledFlag env
           then (w, inl TypeError) else (w, inr tt)
    end.
Proof.
  intros Hp.
  unfold showNotification, restructureProps, isAudioMuted, shouldDisplay,
    deviceMessageType_is, lift, member.
  destruct p as [| |[]|z|s]; try done; simpl.
  - destruct (enabledFlag env) eqn:He; run_plain.
  - destruct (z =? 0) eqn:Hz, (enabledFlag env) eqn:He; run_plain.
  - destruct (String.eqb s "") eqn:Hs, (enabledFlag env) eqn:He; run_plain.
Qed.

Lemma not_appended {A : Type} (xs : list A) (a : A) : xs ≠ (xs ++ [a])%list.
Proof.
  intros Heq. apply (f_equal length) in Heq.
  rewrite length_app in Heq. simpl in Heq. lia.
Qed.

Lemma uidFor_restructured env o d : uidFor env (restructured o d) = uidFor env o.
Proof.
  unfold uidFor, restructured. by rewrite !lookup_insert_ne by discriminate.
Qed.

(** A run that emits an action ran on a payload object, found its
    description eligible and emitted one ShowEvent. *)
Lemma show_emits_inv env props type w w' r a :
  showNotification env props type w = (w', r) ->
  dispatched w' = (dispatched w ++ [a])%list ->
  exists l,
    props = ByRef l /\ r = inr tt /\
    let o := object_at l w in
    let d := seenDescription o in
    nullish d = false /\
    eligible env (prepared o) d = true /\
    a = SHOW_NOTIFICATION (ByRef l) (timeoutFor d) (uidFor env o) /\
    w' = set_dispatched (dispatched w ++ [a])
           (store_object l (<["description" := displayText d]> (prepared o)) w).
Proof.
  intros Hrun Hemit.
  destruct props as [p|l].
  { exfalso. destruct p.
    1:{ rewrite showNotification_omitted in Hrun. cbv zeta in Hrun.
        destruct (enabledFlag env); inversion Hrun; subst w';
          by apply (not_appended (dispatched w) a). }
    all: rewrite showNotification_primitive in Hrun by done.
    all: try destruct (_ && _); inversion Hrun; subst w';
      by apply (not_appended (dispatched w) a). }
  exists l. split; [reflexivity|].
  rewrite showNotification_ref in Hrun.
  unfold showNotification_on_object, shown in Hrun. cbv zeta.
  unfold seenDescription, prepared.
  set (o := object_at l w) in *.
  destruct (truthy (default JUndefined (o !! "description"))) eqn:Ht.
  - destruct (JSON_parse _) as [parsed|] eqn:Hp; simpl.
    2:{ inversion Hrun; subst w'. by destruct (not_appended (dispatched w) a). }
    unfold seenDescription. rewrite Ht, Hp. simpl.
    destruct (nullish parsed) eqn:Hn.
    { inversion Hrun; subst w'. by destruct (not_appended (dispatched w) a). }
    destruct (eligible env (restructured o parsed) parsed) eqn:He.
    2:{ inversion Hrun; subst w'. by destruct (not_appended (dispatched w) a). }
    inversion Hrun; subst w' r. simpl in Hemit.
    apply app_inv_head in Hemit. injection Hemit as <-.
    by rewrite uidFor_restructured.
  - set (d := default JUndefined (o !! "description")) in *.
    destruct (enabledFlag env) eqn:Hflag.
    2:{ inversion Hrun; subst w'. by destruct (not_appended (dispatched w) a). }
    destruct (nullish d) eqn:Hn.
    { inversion Hrun; subst w'. by destruct (not_appended (dispatched w) a). }
    rewrite (eligible_falsy env o d Ht), Hflag in Hrun |- *.
    inversion Hrun; subst w' r. simpl in Hemit.
    apply app_inv_head in Hemit. injection Hemit as <-.
    done.
Qed.

End Runs.

(** ** Properties of [showNotification] *)

Section ShowProperties.
Context {imports : Imports}.

Lemma is_str_unique v s s' :
  is_str v s = true -> is_str v s' = true -> s = s'.
Proof.
  destruct v; simpl; try discriminate.
  intros Hs Hs'. apply String.eqb_eq in Hs, Hs'. congruence.
Qed.

Lemma timeoutFor_cases d :
  timeoutFor d =
    if is_str (deviceMessageType d) "PAUSE_SESSION"
       || is_str (deviceMessageType d) "RESUME_SESSION"
    then INSTANT NOTIFICATION_TIMEOUT
    else LONG NOTIFICATION_TIMEOUT.
Proof.
  unfold timeoutFor, micMuted.
  by destruct (is_str _ "PAUSE_SESSION"), (is_str _ "RESUME_SESSION").
Qed.

(** With the flag unset the first disjunct of the eligibility expression is
    gone and the other three remain. *)
Lemma eligible_flag_unset env o d :
  enabledFlag env = false ->
  eligible env o d =
    (is_str (deviceMessageType d) "CONSULTATION_ENDED"
     && is_str (opt_member d "sendTo") "clinician")
    || is_true (opt_member d "isRaisedHand")
    || (is_str (deviceMessageType d) "CONSULTATION_ENDED" && allowListed env o).
Proof. unfold eligible. by intros ->. Qed.

(** A raised hand is displayed whatever the flag says. *)
Lemma show_raised_hand_emits env l type w o text parsed :
  heap w !! l = Some o ->
  o !! "description" = Some text ->
  truthy text = true ->
  JSON_parse text = Some parsed ->
  is_true (opt_member parsed "isRaisedHand") = true ->
  exists t u,
    dispatched (fst (showNotification env (ByRef l) type w)) =
      (dispatched w ++ [SHOW_NOTIFICATION (ByRef l) t u])%list.
Proof.
  intros Hl Hd Ht Hp Hr.
  rewrite showNotification_ref, (object_at_heap l o w Hl).
  unfold showNotification_on_object. rewrite Hd; simpl. rewrite Ht, Hp.
  assert (Hn : nullish parsed = false) by (by destruct parsed).
  rewrite Hn. unfold shown, eligible. rewrite Hr.
  rewrite orb_true_r. simpl. by eexists _, _.
Qed.

(** The falsy payloads other than [null] and [undefined] return at the
    guard: no event, no exception, the world as it was. *)
Lemma show_falsy_primitive_returns env p type w :
  p ≠ PUndefined -> p ≠ PNull -> truthy (prim_val p) = false ->
  showNotification env (ByValue p) type w = (w, inr tt).
Proof.
  intros Hu Hn Hf. rewrite showNotification_primitive by done.
  rewrite Hf. by destruct p.
Qed.

(** C2, as amended. Every call of show that emits a ShowEvent ran on a
    payload object; the event carries the uid of that object when that uid
    is truthy, and the text of the current time otherwise: when no uid was
    supplied and also when the supplied uid is falsy (the empty string, 0);
    its timeout is INSTANT when the (parsed) description has
    deviceMessageType PAUSE_SESSION or RESUME_SESSION and LONG in every
    other case. *)
Theorem show_event_uid_and_timeout env props type w w' r p t u :
  showNotification env props type w = (w', r) ->
  dispatched w' = (dispatched w ++ [SHOW_NOTIFICATION p t u])%list ->
  exists l,
    props = ByRef l /\ p = ByRef l /\
    let o := object_at l w in
    let supplied := default JUndefined (o !! "uid") in
    let type_of_message := deviceMessageType (seenDescription o) in
    u = (if truthy supplied then supplied else JStr (Z_to_string (now env))) /\
    t = (if is_str type_of_message "PAUSE_SESSION"
            || is_str type_of_message "RESUME_SESSION"
         then INSTANT NOTIFICATION_TIMEOUT
         else LONG NOTIFICATION_TIMEOUT).
Proof.
  intros Hrun Hemit.
  destruct (show_emits_inv _ _ _ _ _ _ _ Hrun Hemit)
    as (l & -> & _ & _ & _ & Ha & _).
  exists l. injection Ha as -> -> ->.
  split; [reflexivity|]. split; [reflexivity|].
  split; [reflexivity | apply timeoutFor_cases].
Qed.

(** C6. Every call of show that emits a ShowEvent leaves, in the payload
    object that the event carries, a description text chosen by the
    deviceMessageType of the (parsed) description: the message content for
    MESSAGE, and one fixed text each for CONSULTATION_ENDED, PAUSE_SESSION,
    RESUME_SESSION and for every other value. *)
Theorem show_event_description env props type w w' r p t u :
  showNotification env props type w = (w', r) ->
  dispatched w' = (dispatched w ++ [SHOW_NOTIFICATION p t u])%list ->
  exists l,
    props = ByRef l /\ p = ByRef l /\
    let d := seenDescription (object_at l w) in
    let type_of_message := deviceMessageType d in
    let text := field l "description" w' in
    (is_str type_of_message "MESSAGE" = true ->
       text = opt_member d "content") /\
    (is_str type_of_message "CONSULTATION_ENDED" = true ->
       text = JStr "Consulation phase has ended") /\
    (is_str type_of_message "PAUSE_SESSION" = true ->
       text = JStr "Session is paused") /\
    (is_str type_of_message "RESUME_SESSION" = true ->
       text = JStr "Session is resumed") /\
    (is_str type_of_message "MESSAGE" = false ->
     is_str type_of_message "CONSULTATION_ENDED" = false ->
     is_str type_of_message "PAUSE_SESSION" = false ->
     is_str type_of_message "RESUME_SESSION" = false ->
       text = JStr "Raised a Hand").
Proof.
  intros Hrun Hemit.
  destruct (show_emits_inv _ _ _ _ _ _ _ Hrun Hemit)
    as (l & -> & _ & _ & _ & Ha & ->).
  exists l. injection Ha as -> _ _.
  split; [reflexivity|]. split; [reflexivity|]. cbv zeta.
  set (d := seenDescription (object_at l w)).
  assert (Htext :
    field l "description"
      (set_dispatched
         (dispatched w ++ [SHOW_NOTIFICATION (ByRef l) t u])
         (store_object l
            (<["description" := displayText d]> (prepared (object_at l w))) w))
    = displayText d).
  { change (field l "description"
              (store_object l
                 (<["description" := displayText d]> (prepared (object_at l w))) w)
            = displayText d).
    by rewrite field_store, lookup_insert_eq. }
  rewrite Htext. unfold displayText.
  repeat split.
  - by intros ->.
  - intros He. rewrite He.
    destruct (is_str _ "MESSAGE") eqn:Hm; [|reflexivity].
    discriminate (is_str_unique _ _ _ Hm He).
  - intros Hp. rewrite Hp.
    destruct (is_str _ "MESSAGE") eqn:Hm.
    { discriminate (is_str_unique _ _ _ Hm Hp). }
    destruct (is_str _ "CONSULTATION_ENDED") eqn:He; [|reflexivity].
    discriminate (is_str_unique _ _ _ He Hp).
  - intros Hr. rewrite Hr.
    destruct (is_str _ "MESSAGE") eqn:Hm.
    { discriminate (is_str_unique _ _ _ Hm Hr). }
    destruct (is_str _ "CONSULTATION_ENDED") eqn:He.
    { discriminate (is_str_unique _ _ _ He Hr). }
    destruct (is_str _ "PAUSE_SESSION") eqn:Hp; [|reflexivity].
    discriminate (is_str_unique _ _ _ Hp Hr).
  - by intros -> -> -> ->.
Qed.

(** C10, as amended. A call of show on a payload object whose description
    is truthy and parses to a value other than null writes to that very
    object and to no other: the description is replaced by its parsed form,
    messageId, title, isEndStream and isMicMuted are set, and every other
    property is kept; when the call emits a ShowEvent, the event carries the
    same reference and the description is then replaced by the display text,
    and when it emits none the description stays in parsed form. *)
Theorem show_mutates_payload_in_place env l type w o text parsed :
  heap w !! l = Some o ->
  o !! "description" = Some text ->
  truthy text = true ->
  JSON_parse text = Some parsed ->
  nullish parsed = false ->
  let result := showNotification env (ByRef l) type w in
  let w' := fst result in
  snd result = inr tt /\
  (forall l', l' ≠ l -> heap w' !! l' = heap w !! l') /\
  exists o',
    heap w' !! l = Some o' /\
    o' !! "messageId" = Some (messageIdOf parsed) /\
    o' !! "title" = Some (titleOf parsed) /\
    o' !! "isEndStream" =
      Some (JBool (is_str (deviceMessageType parsed) "CONSULTATION_ENDED")) /\
    o' !! "isMicMuted" = Some (micMuted parsed) /\
    (forall k, k ∉ ["description"; "messageId"; "title"; "isEndStream"; "isMicMuted"] ->
               o' !! k = o !! k) /\
    ((dispatched w' = dispatched w /\ o' !! "description" = Some parsed) \/
     (exists t u,
        dispatched w' = (dispatched w ++ [SHOW_NOTIFICATION (ByRef l) t u])%list /\
        o' !! "description" = Some (displayText parsed))).
Proof.
  intros Hl Hd Ht Hp Hn. cbv zeta.
  rewrite showNotification_ref, (object_at_heap l o w Hl).
  unfold showNotification_on_object. rewrite Hd; simpl. rewrite Ht, Hp, Hn.
  assert (Hother : forall k v,
            k ∉ ["description"; "messageId"; "title"; "isEndStream"; "isMicMuted"] ->
            <["description" := v]> (restructured o parsed) !! k = o !! k).
  { intros k v Hk. unfold restructured.
    rewrite !lookup_insert_ne; [reflexivity|..];
      intros <-; apply Hk; set_solver. }
  unfold shown.
  destruct (eligible env (restructured o parsed) parsed); simpl.
  - split; [reflexivity|].
    split; [intros l' Hne; by rewrite lookup_insert_ne|].
    exists (<["description" := displayText parsed]> (restructured o parsed)).
    rewrite lookup_insert_eq. split; [reflexivity|].
    unfold restructured.
    repeat (split; [by repeat first [ rewrite lookup_insert_eq
                                    | rewrite lookup_insert_ne by discriminate ]|]).
    split; [intros k Hk; by apply Hother|].
    right. eexists _, _. split; [reflexivity|]. apply lookup_insert_eq.
  - split; [reflexivity|].
    split; [intros l' Hne; by rewrite lookup_insert_ne|].
    exists (restructured o parsed).
    rewrite lookup_insert_eq. split; [reflexivity|].
    unfold restructured.
    repeat (split; [by repeat first [ rewrite lookup_insert_eq
                                    | rewrite lookup_insert_ne by discriminate ]|]).
    split.
    + intros k Hk. rewrite <- (Hother k parsed Hk). unfold restructured.
      symmetry. rewrite lookup_insert_ne; [reflexivity|].
      intros <-. apply Hk. set_solver.
    + left. split; [reflexivity|].
      by repeat first [ rewrite lookup_insert_eq
                      | rewrite lookup_insert_ne by discriminate ].
Qed.

Lemma is_str_JStr s t : is_str (JStr s) t = bool_decide (s = t).
Proof.
  simpl. destruct (String.eqb_spec s t) as [->|Hne].
  - by rewrite bool_decide_eq_true_2.
  - by rewrite bool_decide_eq_false_2.
Qed.

(** C5, as amended. The timeout resolver [getNotificationTimeout] maps the
    class SHORT to the configured short override when one is present (neither
    null nor undefined) and to the built-in SHORT default otherwise, likewise
    for MEDIUM and LONG, and STICKY to the STICKY constant, for which
    [createTimeoutId] arms no timer when that constant is falsy.  A call of
    show does not consult the resolver: its run is the same for every
    timeout class and every configuration of overrides. *)
Theorem timeout_resolution cfg :
  NoDup [TYPE_SHORT NOTIFICATION_TIMEOUT_TYPE;
         TYPE_MEDIUM NOTIFICATION_TIMEOUT_TYPE;
         TYPE_LONG NOTIFICATION_TIMEOUT_TYPE;
         TYPE_STICKY NOTIFICATION_TIMEOUT_TYPE] ->
  let resolve type := getNotificationTimeout (JStr type) cfg in
  let configured k := opt_member cfg k in
  resolve (TYPE_SHORT NOTIFICATION_TIMEOUT_TYPE) =
    (if nullish (configured "short") then SHORT NOTIFICATION_TIMEOUT
     else configured "short") /\
  resolve (TYPE_MEDIUM NOTIFICATION_TIMEOUT_TYPE) =
    (if nullish (configured "medium") then MEDIUM NOTIFICATION_TIMEOUT
     else configured "medium") /\
  resolve (TYPE_LONG NOTIFICATION_TIMEOUT_TYPE) =
    (if nullish (configured "long") then LONG NOTIFICATION_TIMEOUT
     else configured "long") /\
  resolve (TYPE_STICKY NOTIFICATION_TIMEOUT_TYPE) = STICKY NOTIFICATION_TIMEOUT /\
  (forall uid s,
     truthy (STICKY NOTIFICATION_TIMEOUT) = false ->
     createTimeoutId (resolve (TYPE_STICKY NOTIFICATION_TIMEOUT_TYPE)) uid s = s) /\
  (forall env props type type' cfg' w,
     showNotification (with_timeouts cfg' env) props type' w =
     showNotification env props type w).
Proof.
  intros Hdistinct. cbv zeta.
  unfold getNotificationTimeout, override, coalesce.
  rewrite !is_str_JStr.
  apply NoDup_cons in Hdistinct as [Hs Hdistinct].
  apply NoDup_cons in Hdistinct as [Hm Hdistinct].
  apply NoDup_cons in Hdistinct as [Hl _].
  rewrite bool_decide_eq_true_2 by reflexivity.
  rewrite (bool_decide_eq_false_2
             (TYPE_MEDIUM NOTIFICATION_TIMEOUT_TYPE = TYPE_SHORT NOTIFICATION_TIMEOUT_TYPE))
    by (intros E; apply Hs; rewrite E; set_solver).
  rewrite (bool_decide_eq_false_2
             (TYPE_LONG NOTIFICATION_TIMEOUT_TYPE = TYPE_SHORT NOTIFICATION_TIMEOUT_TYPE))
    by (intros E; apply Hs; rewrite E; set_solver).
  rewrite (bool_decide_eq_false_2
             (TYPE_LONG NOTIFICATION_TIMEOUT_TYPE = TYPE_MEDIUM NOTIFICATION_TIMEOUT_TYPE))
    by (intros E; apply Hm; rewrite E; set_solver).
  rewrite (bool_decide_eq_false_2
             (TYPE_STICKY NOTIFICATION_TIMEOUT_TYPE = TYPE_SHORT NOTIFICATION_TIMEOUT_TYPE))
    by (intros E; apply Hs; rewrite E; set_solver).
  rewrite (bool_decide_eq_false_2
             (TYPE_STICKY NOTIFICATION_TIMEOUT_TYPE = TYPE_MEDIUM NOTIFICATION_TIMEOUT_TYPE))
    by (intros E; apply Hm; rewrite E; set_solver).
  rewrite (bool_decide_eq_false_2
             (TYPE_STICKY NOTIFICATION_TIMEOUT_TYPE = TYPE_LONG NOTIFICATION_TIMEOUT_TYPE))
    by (intros E; apply Hl; rewrite E; set_solver).
  rewrite !bool_decide_eq_true_2 by reflexivity.
  repeat split.
  intros uid s Hfalsy. unfold createTimeoutId. by rewrite Hfalsy.
Qed.

End ShowProperties.

(** ** Properties of [hideNotification] *)

Section HideProperties.

(** C3. With a snapshot whose props are an object, hide first issues the
    mute command for the local AUDIO device when isMicMuted is neither null
    nor undefined, then emits the HideEvent with the uid and the conference of
    the state at that time; when isEndStream is truthy the navigation is not
    part of that run but queued as one reaction, which runs after the
    HideEvent has reached the store.  Without a snapshot only the HideEvent
    is emitted and nothing is queued. *)
Theorem hide_side_effects env uid l timeout stored_uid w :
  let snapshot :=
    {| n_props := ByRef l; n_timeout := timeout; n_uid := stored_uid |} in
  let isMicMuted := field l "isMicMuted" w in
  let isEndStream := field l "isEndStream" w in
  let mute := if nullish isMicMuted then [] else [muteLocal isMicMuted AUDIO] in
  let hide := HIDE_NOTIFICATION uid (conference env) in
  let navigate := if truthy isEndStream then [appNavigate JUndefined] else [] in
  let with_snapshot := hideNotification env uid (Some snapshot) w in
  let without := hideNotification env uid None w in
  (snd with_snapshot = inr tt /\
   dispatched (fst with_snapshot) = (dispatched w ++ mute ++ [hide])%list /\
   reactions (fst with_snapshot) = (reactions w ++ navigate)%list /\
   dispatched (run_reactions (fst with_snapshot)) =
     (dispatched w ++ mute ++ [hide] ++ reactions w ++ navigate)%list /\
   reactions (run_reactions (fst with_snapshot)) = []) /\
  (snd without = inr tt /\
   dispatched (fst without) = (dispatched w ++ [hide])%list /\
   reactions (fst without) = reactions w /\
   heap (fst without) = heap w).
Proof.
  cbv zeta. split; [|by repeat split].
  unfold hideNotification, run_reactions; simpl.
  rewrite !bind_run; simpl.
  assert (Hfield : forall k d, field l k (set_dispatched d w) = field l k w)
    by reflexivity.
  destruct (nullish (field l "isMicMuted" w)) eqn:Hm,
           (truthy (field l "isEndStream" w)) eqn:He; simpl.
  all: repeat first [ rewrite bind_run | rewrite Hfield | rewrite Hm
                    | rewrite He | progress simpl ].
  all: repeat split; simpl; rewrite ?app_nil_r, <- ?app_assoc; reflexivity.
Qed.

(** A snapshot without props: reading a property of [undefined] throws
    before anything is dispatched. *)
Lemma hide_throws_without_props env uid timeout stored_uid w :
  hideNotification env uid
    (Some {| n_props := ByValue PUndefined; n_timeout := timeout;
             n_uid := stored_uid |}) w = (w, inl TypeError).
Proof. reflexivity. Qed.

End HideProperties.

(** ** Properties of the batched join and leave notifications *)

Section BatchProperties.
Context {imports : Imports}.

(** The template that a flush chooses: none for an empty buffer, the
    one-member template with the name, the two-members template with both
    names, and the three-plus template with the first name only. *)
Lemma batchProps_templates (threePlus two one a b c : string) (rest : list string) :
  batchProps [] threePlus two one = None /\
  batchProps [a] threePlus two one =
    Some {[ "titleArguments" := JObj [("name", JStr a)];
            "titleKey" := JStr one ]} /\
  batchProps [a; b] threePlus two one =
    Some {[ "titleArguments" := JObj [("first", JStr a); ("second", JStr b)];
            "titleKey" := JStr two ]} /\
  batchProps (a :: b :: c :: rest) threePlus two one =
    Some {[ "titleArguments" := JObj [("name", JStr a)];
            "titleKey" := JStr threePlus ]}.
Proof.
  repeat split.
  unfold batchProps.
  replace (3 <=? Z.of_nat (length (a :: b :: c :: rest))) with true;
    [reflexivity|].
  symmetry. apply Z.leb_le. simpl length. lia.
Qed.

Lemma batchProps_no_description names threePlus two one o :
  batchProps names threePlus two one = Some o -> o !! "description" = None.
Proof.
  unfold batchProps.
  repeat case_match; intros Ho; try discriminate; injection Ho as <-;
    by rewrite lookup_insert_ne, lookup_singleton_ne.
Qed.

(** A payload object without a description: the thunk throws when the
    feature flag is set and returns without an event when it is not. *)
Lemma showNotification_no_description env l type w :
  object_at l w !! "description" = None ->
  showNotification env (ByRef l) type w =
    if enabledFlag env then (w, inl TypeError) else (w, inr tt).
Proof.
  intros Hd. rewrite showNotification_ref.
  unfold showNotification_on_object. by rewrite Hd.
Qed.

(** One flush of the join buffer, in closed form. *)
Lemma join_flush_run env w :
  _throttledNotifyParticipantConnected env w =
    if participantCount env >? SILENT_JOIN_THRESHOLD then (set_joined [] w, inr tt)
    else
      match batchProps (joinedParticipantsNames w)
              "notify.connectedThreePlusMembers" "notify.connectedTwoMembers"
              "notify.connectedOneMember" with
      | None => (set_joined [] w, inr tt)
      | Some o =>
          let w1 := store_object (fresh (dom (heap w))) o w in
          if enabledFlag env then (w1, inl TypeError)
          else (set_joined [] w1, inr tt)
      end.
Proof.
  unfold _throttledNotifyParticipantConnected.
  destruct (participantCount env >? SILENT_JOIN_THRESHOLD); [reflexivity|].
  rewrite !bind_run; simpl.
  destruct (batchProps _ _ _ _) as [o|] eqn:Ho; [|reflexivity].
  rewrite bind_run. unfold new_object at 1.
  rewrite bind_run. cbv beta iota zeta.
  rewrite showNotification_no_description.
  - by destruct (enabledFlag env).
  - rewrite object_at_store. by eapply batchProps_no_description.
Qed.

Lemma left_flush_run env w :
  _throttledNotifyParticipantLeft env w =
    if participantCount env >? SILENT_LEFT_THRESHOLD then (set_left [] w, inr tt)
    else
      match batchProps (leftParticipantsNames w)
              "notify.leftThreePlusMembers" "notify.leftTwoMembers"
              "notify.leftOneMember" with
      | None => (set_left [] w, inr tt)
      | Some o =>
          let w1 := store_object (fresh (dom (heap w))) o w in
          if enabledFlag env then (w1, inl TypeError)
          else (set_left [] w1, inr tt)
      end.
Proof.
  unfold _throttledNotifyParticipantLeft.
  destruct (participantCount env >? SILENT_LEFT_THRESHOLD); [reflexivity|].
  rewrite !bind_run; simpl.
  destruct (batchProps _ _ _ _) as [o|] eqn:Ho; [|reflexivity].
  rewrite bind_run. unfold new_object at 1.
  rewrite bind_run. cbv beta iota zeta.
  rewrite showNotification_no_description.
  - by destruct (enabledFlag env).
  - rewrite object_at_store. by eapply batchProps_no_description.
Qed.

(** No flush ever reaches the store with a ShowEvent: the props it builds
    carry no description. *)
Lemma flush_emits_nothing env w :
  dispatched (fst (_throttledNotifyParticipantConnected env w)) = dispatched w /\
  dispatched (fst (_throttledNotifyParticipantLeft env w)) = dispatched w.
Proof.
  rewrite join_flush_run, left_flush_run.
  split; repeat case_match; reflexivity.
Qed.

End BatchProperties.

(** ** Properties of the timer registry *)

Section TimerProperties.












End TimerProperties.

(** ** The properties at concrete inputs *)

Example parse_raised_hand :
  json_parse_text (JStr (json "{'isRaisedHand':true}")) =
    Some (JObj [("isRaisedHand", JBool true)]).
Proof. reflexivity. Qed.

Example parse_rejects_plain_text :
  json_parse_text (JStr "Raised a Hand") = None.
Proof. reflexivity. Qed.

(** A pause request from show to hide: the ShowEvent has the INSTANT
    timeout and the text of the pause, and hiding the notification mutes the
    local audio before the HideEvent. *)
Example pause_session_scenario :
  let shown_world :=
    fst (showNotification (imports := sample_imports) (sample_env true) (ByRef 1)
           JUndefined (world_with paused_payload)) in
  let snapshot :=
    {| n_props := ByRef 1; n_timeout := JNum 1000; n_uid := JStr "n1" |} in
  dispatched shown_world =
    [SHOW_NOTIFICATION (ByRef 1) (JNum 1000) (JStr "n1")] /\
  field 1 "description" shown_world = JStr "Session is paused" /\
  dispatched (fst (hideNotification (sample_env true) (JStr "n1") (Some snapshot)
                     shown_world)) =
    [SHOW_NOTIFICATION (ByRef 1) (JNum 1000) (JStr "n1");
     muteLocal (JBool true) AUDIO;
     HIDE_NOTIFICATION (JStr "n1") (JStr "room")].
Proof. by vm_compute. Qed.

(** C1. With the feature flag unset, a payload whose description carries
    isRaisedHand = true is displayed all the same: the run returns normally
    and emits a ShowEvent. *)
Theorem show_emits_with_flag_unset :
  let result :=
    showNotification (imports := sample_imports) (sample_env false) (ByRef 1) JUndefined
      (world_with raised_hand_payload) in
  enabledFlag (sample_env false) = false /\
  snd result = inr tt /\
  dispatched (fst result) =
    [SHOW_NOTIFICATION (ByRef 1) (JNum 10000) (JStr "1700000000000")].
Proof. vm_compute. repeat split. Qed.

(** C8. A null payload throws before the guard on falsy payloads is
    reached, whatever the flag; the omitted payload, which the default
    parameter turns into an empty object, and the empty object itself throw
    when the flag is set. *)
Theorem show_throws_on_null_and_empty_payload :
  (forall (imports : Imports) env type w,
     showNotification env (ByValue PNull) type w = (w, inl TypeError)) /\
  snd (showNotification (imports := sample_imports) (sample_env true)
         (ByValue PUndefined) JUndefined empty_world) = inl TypeError /\
  snd (showNotification (imports := sample_imports) (sample_env true)
         (ByRef 1) JUndefined (world_with ∅)) = inl TypeError.
Proof.
  split; [|by vm_compute].
  intros imports env type w. by rewrite showNotification_primitive.
Qed.

(** C9. The props of a batched join notification have no description: with
    the flag set the run throws a TypeError and emits nothing. *)
Theorem show_throws_on_join_props :
  let result :=
    showNotification (imports := sample_imports) (sample_env true) (ByRef 1)
      (JStr "short") (world_with join_payload) in
  snd result = inl TypeError /\ dispatched (fst result) = [].
Proof. by vm_compute. Qed.

(** C4. A flush of the join buffer holding one name, in a small meeting
    with the flag set: the thunk it dispatches throws, no notification is
    emitted, and the buffer still holds the name. *)
Theorem join_flush_throws_and_keeps_buffer :
  let result :=
    _throttledNotifyParticipantConnected (imports := sample_imports) (sample_env true)
      (set_joined ["A"] empty_world) in
  (participantCount (sample_env true) >? SILENT_JOIN_THRESHOLD (Imports := sample_imports))
    = false /\
  snd result = inl TypeError /\
  dispatched (fst result) = [] /\
  joinedParticipantsNames (fst result) = ["A"].
Proof. by vm_compute. Qed.

(** C2, against the claim as stated: a payload that brings the uid 0, or
    the empty string as its uid, is shown under the text of the current time
    as uid, not under the uid supplied. *)
Lemma show_replaces_falsy_uid :
  let shown_with uid :=
    showNotification (imports := sample_imports) (sample_env true) (ByRef 1)
      JUndefined (world_with (falsy_uid_payload uid)) in
  falsy_uid_payload (JNum 0) !! "uid" = Some (JNum 0) /\
  snd (shown_with (JNum 0)) = inr tt /\
  dispatched (fst (shown_with (JNum 0))) =
    [SHOW_NOTIFICATION (ByRef 1) (JNum 10000) (JStr "1700000000000")] /\
  falsy_uid_payload (JStr EmptyString) !! "uid" = Some (JStr EmptyString) /\
  snd (shown_with (JStr EmptyString)) = inr tt /\
  dispatched (fst (shown_with (JStr EmptyString))) =
    [SHOW_NOTIFICATION (ByRef 1) (JNum 10000) (JStr "1700000000000")].
Proof. cbv zeta. repeat split; by vm_compute. Qed.

(** C2 at a pause request that brings its own uid: the event has that uid
    and the INSTANT timeout. *)
Lemma show_event_uid_and_timeout_witness :
  exists l : positive,
    ByRef 1 = ByRef l /\ ByRef 1 = ByRef l /\
    let o := object_at l (world_with paused_payload) in
    let supplied := default JUndefined (o !! "uid") in
    let type_of_message :=
      deviceMessageType (seenDescription (imports := sample_imports) o) in
    JStr "n1" =
      (if truthy supplied then supplied
       else JStr (Z_to_string (now (sample_env true)))) /\
    JNum 1000 =
      (if is_str type_of_message "PAUSE_SESSION"
          || is_str type_of_message "RESUME_SESSION"
       then INSTANT (NOTIFICATION_TIMEOUT (Imports := sample_imports))
       else LONG (NOTIFICATION_TIMEOUT (Imports := sample_imports))).
Proof.
  apply (show_event_uid_and_timeout (imports := sample_imports) (sample_env true)
           (ByRef 1) JUndefined (world_with paused_payload)
           (fst (showNotification (imports := sample_imports) (sample_env true) (ByRef 1)
                   JUndefined (world_with paused_payload)))
           (snd (showNotification (imports := sample_imports) (sample_env true) (ByRef 1)
                   JUndefined (world_with paused_payload)))).
  - apply surjective_pairing.
  - vm_compute. reflexivity.
Defined.

(** C6 at the same pause request. *)
Lemma show_event_description_witness :
  exists l : positive,
    ByRef 1 = ByRef l /\ ByRef 1 = ByRef l /\
    let d :=
      seenDescription (imports := sample_imports)
        (object_at l (world_with paused_payload)) in
    let type_of_message := deviceMessageType d in
    let text :=
      field l "description"
        (fst (showNotification (imports := sample_imports) (sample_env true) (ByRef 1)
                JUndefined (world_with paused_payload))) in
    (is_str type_of_message "MESSAGE" = true ->
       text = opt_member d "content") /\
    (is_str type_of_message "CONSULTATION_ENDED" = true ->
       text = JStr "Consulation phase has ended") /\
    (is_str type_of_message "PAUSE_SESSION" = true ->
       text = JStr "Session is paused") /\
    (is_str type_of_message "RESUME_SESSION" = true ->
       text = JStr "Session is resumed") /\
    (is_str type_of_message "MESSAGE" = false ->
     is_str type_of_message "CONSULTATION_ENDED" = false ->
     is_str type_of_message "PAUSE_SESSION" = false ->
     is_str type_of_message "RESUME_SESSION" = false ->
       text = JStr "Raised a Hand").
Proof.
  apply (show_event_description (imports := sample_imports) (sample_env true)
           (ByRef 1) JUndefined (world_with paused_payload)
           (fst (showNotification (imports := sample_imports) (sample_env true) (ByRef 1)
                   JUndefined (world_with paused_payload)))
           (snd (showNotification (imports := sample_imports) (sample_env true) (ByRef 1)
                   JUndefined (world_with paused_payload)))
           (ByRef 1) (JNum 1000) (JStr "n1")).
  - apply surjective_pairing.
  - vm_compute. reflexivity.
Defined.

(** C10, against the claim as stated: the description of a payload that was
    handled already is parsed, found not eligible, and left in its parsed
    form; it is never replaced by the display text, and no event is
    emitted. *)
Lemma show_leaves_parsed_description :
  let result :=
    showNotification (imports := sample_imports) (sample_env true) (ByRef 1) JUndefined
      (world_with handled_payload) in
  let parsed := JObj [("handledAt", JNum 1)] in
  snd result = inr tt /\
  dispatched (fst result) = [] /\
  field 1 "description" (fst result) = parsed /\
  field 1 "description" (fst result) ≠ displayText parsed.
Proof. vm_compute. repeat split. discriminate. Qed.

(** C10, as amended, at the payload that was handled already. *)
Lemma show_mutates_payload_in_place_witness :
  let result :=
    showNotification (imports := sample_imports) (sample_env true) (ByRef 1) JUndefined
      (world_with handled_payload) in
  let parsed := JObj [("handledAt", JNum 1)] in
  let w' := fst result in
  snd result = inr tt /\
  (forall l', l' ≠ 1%positive ->
              heap w' !! l' = heap (world_with handled_payload) !! l') /\
  exists o',
    heap w' !! 1%positive = Some o' /\
    o' !! "messageId" = Some (messageIdOf parsed) /\
    o' !! "title" = Some (titleOf parsed) /\
    o' !! "isEndStream" =
      Some (JBool (is_str (deviceMessageType parsed) "CONSULTATION_ENDED")) /\
    o' !! "isMicMuted" = Some (micMuted parsed) /\
    (forall k, k ∉ ["description"; "messageId"; "title"; "isEndStream"; "isMicMuted"] ->
               o' !! k = handled_payload !! k) /\
    ((dispatched w' = dispatched (world_with handled_payload) /\
      o' !! "description" = Some parsed) \/
     (exists t u,
        dispatched w' =
          (dispatched (world_with handled_payload)
             ++ [SHOW_NOTIFICATION (ByRef 1) t u])%list /\
        o' !! "description" = Some (displayText parsed))).
Proof.
  apply (show_mutates_payload_in_place (imports := sample_imports) (sample_env true)
           1%positive JUndefined (world_with handled_payload) handled_payload
           (JStr (json "{'handledAt':1}")) (JObj [("handledAt", JNum 1)])).
  - vm_compute. reflexivity.
  - vm_compute. reflexivity.
  - vm_compute. reflexivity.
  - vm_compute. reflexivity.
  - vm_compute. reflexivity.
Defined.

(** C5, against the claim as stated: a show call of class SHORT under a
    configured short override of 1 emits a ShowEvent whose timeout is the
    LONG constant, not the override that the resolver would give. *)
Lemma show_ignores_short_override :
  let result :=
    showNotification (imports := sample_imports) override_env (ByRef 1)
      (JStr (TYPE_SHORT sample_types)) (world_with plain_payload) in
  getNotificationTimeout (imports := sample_imports) (JStr (TYPE_SHORT sample_types))
    (notificationTimeouts override_env) = JNum 1 /\
  dispatched (fst result) =
    [SHOW_NOTIFICATION (ByRef 1) (JNum 10000) (JStr "1700000000000")] /\
  JNum 10000 ≠ JNum 1.
Proof. vm_compute. repeat split. discriminate. Qed.

(** C5, as amended, at the sample constants with a short override of 1. *)
Lemma timeout_resolution_witness :
  let cfg := JObj [("short", JNum 1)] in
  let resolve type := getNotificationTimeout (imports := sample_imports) (JStr type) cfg in
  resolve "short" = JNum 1 /\
  resolve "medium" = JNum 5000 /\
  resolve "long" = JNum 10000 /\
  resolve "sticky" = JBool false.
Proof.
  destruct (timeout_resolution (imports := sample_imports) (JObj [("short", JNum 1)]))
    as (Hs & Hm & Hl & Hk & _).
  - apply (bool_decide_unpack _). vm_compute. exact I.
  - exact (conj Hs (conj Hm (conj Hl Hk))).
Defined.


(** ** Further properties of [showNotification] *)

Section ShowFurther.
Context {imports : Imports}.

(** X1. Whatever the payload, a run of show emits at most one action, a
    ShowEvent that carries the caller's own reference; it queues no
    reaction, leaves both batch buffers alone, and changes no object of the
    heap other than the payload object. *)
Theorem show_frame env props type w :
  let w' := fst (showNotification env props type w) in
  reactions w' = reactions w /\
  joinedParticipantsNames w' = joinedParticipantsNames w /\
  leftParticipantsNames w' = leftParticipantsNames w /\
  (dispatched w' = dispatched w \/
   exists l t u,
     props = ByRef l /\
     dispatched w' = (dispatched w ++ [SHOW_NOTIFICATION (ByRef l) t u])%list) /\
  (forall l',
     props ≠ ByRef l' -> l' ∈ dom (heap w) -> heap w' !! l' = heap w !! l').
Proof.
  cbv zeta. destruct props as [p|l].
  - destruct p.
    { rewrite showNotification_omitted. cbv zeta.
      assert (Hfresh : forall l', l' ∈ dom (heap w) ->
                heap (store_object (fresh (dom (heap w))) ∅ w) !! l' = heap w !! l').
      { intros l' Hl'. unfold store_object; simpl.
        apply lookup_insert_ne. intros <-. by apply is_fresh in Hl'. }
      destruct (enabledFlag env); simpl; repeat split; auto. }
    all: rewrite showNotification_primitive by done.
    all: try destruct (_ && _); simpl; repeat split; auto.
  - rewrite showNotification_ref.
    unfold showNotification_on_object, shown.
    assert (Hheap : forall o l',
              ByRef l ≠ ByRef l' ->
              heap (store_object l o w) !! l' = heap w !! l').
    { intros o l' Hne. unfold store_object; simpl.
      apply lookup_insert_ne. congruence. }
    repeat case_match; simpl; repeat split;
      first [ reflexivity
            | by left
            | right; by eexists _, _, _
            | intros l' Hne _; by apply Hheap
            | by intros l' Hne _ ].
Qed.

(** X2. A truthy description that JSON.parse rejects makes the run throw a
    SyntaxError with nothing written and nothing emitted; one that parses to
    null makes it throw a TypeError after the description of the caller's
    object was overwritten with null, and nothing else was written. *)
Theorem show_malformed_description env l type w o text :
  heap w !! l = Some o ->
  o !! "description" = Some text ->
  truthy text = true ->
  JSON_parse text = None \/ JSON_parse text = Some JNull ->
  let result := showNotification env (ByRef l) type w in
  dispatched (fst result) = dispatched w /\
  match JSON_parse text with
  | None => result = (w, inl SyntaxError)
  | Some _ =>
      result = (store_object l (<["description" := JNull]> o) w, inl TypeError)
  end.
Proof.
  intros Hl Hd Ht Hp. cbv zeta.
  rewrite showNotification_ref, (object_at_heap l o w Hl).
  unfold showNotification_on_object. rewrite Hd; simpl. rewrite Ht.
  by destruct Hp as [-> | ->].
Qed.

(** X3. A message that was handled already (a truthy handledAt) is not
    displayed again, whatever the flag and the allow-list, unless it is a
    raised hand or the end of the consultation: the run returns normally and
    emits nothing. *)
Theorem show_skips_handled env l type w o text parsed :
  heap w !! l = Some o ->
  o !! "description" = Some text ->
  truthy text = true ->
  JSON_parse text = Some parsed ->
  truthy (opt_member parsed "handledAt") = true ->
  is_true (opt_member parsed "isRaisedHand") = false ->
  is_str (deviceMessageType parsed) "CONSULTATION_ENDED" = false ->
  let result := showNotification env (ByRef l) type w in
  snd result = inr tt /\ dispatched (fst result) = dispatched w.
Proof.
  intros Hl Hd Ht Hp Hh Hr He. cbv zeta.
  rewrite showNotification_ref, (object_at_heap l o w Hl).
  unfold showNotification_on_object. rewrite Hd; simpl. rewrite Ht, Hp.
  assert (Hn : nullish parsed = false) by (by destruct parsed).
  rewrite Hn. unfold shown, eligible. rewrite Hh, Hr, He.
  rewrite andb_false_r. by simpl.
Qed.

(** X4. The allow-list is consulted for the end of the consultation only:
    for a payload object whose (parsed) description has any other
    deviceMessageType, the run is the same under every allow-list
    configuration. *)
Theorem allow_list_only_for_consultation_ended env allowed l type w :
  is_str (deviceMessageType (seenDescription (object_at l w)))
    "CONSULTATION_ENDED" = false ->
  showNotification (with_notifications allowed env) (ByRef l) type w =
  showNotification env (ByRef l) type w.
Proof.
  intros He. rewrite !showNotification_ref.
  unfold showNotification_on_object, seenDescription in *.
  set (o := object_at l w) in *.
  assert (Heligible : forall o' d,
            is_str (deviceMessageType d) "CONSULTATION_ENDED" = false ->
            eligible (with_notifications allowed env) o' d = eligible env o' d).
  { intros o' d Hd. unfold eligible. by rewrite Hd, !andb_false_l. }
  destruct (truthy (default JUndefined (o !! "description"))).
  - destruct (JSON_parse _) as [parsed|]; [|reflexivity]. simpl in He.
    destruct (nullish parsed); [reflexivity|].
    unfold shown. by rewrite Heligible.
  - simpl. unfold shown. by rewrite Heligible.
Qed.

(** X5. A payload object cannot be shown twice: after a run that emitted a
    ShowEvent for a description that is no MESSAGE, the description is one of
    the fixed display texts, and a second run on the same object throws a
    SyntaxError when JSON.parse rejects those texts (they are no JSON). *)
Theorem show_again_throws env l type type' w w1 t u :
  Forall (fun text => JSON_parse (JStr text) = None)
    ["Consulation phase has ended"; "Session is paused";
     "Session is resumed"; "Raised a Hand"] ->
  showNotification env (ByRef l) type w = (w1, inr tt) ->
  dispatched w1 = (dispatched w ++ [SHOW_NOTIFICATION (ByRef l) t u])%list ->
  is_str (deviceMessageType (seenDescription (object_at l w))) "MESSAGE" = false ->
  showNotification env (ByRef l) type' w1 = (w1, inl SyntaxError).
Proof.
  intros Hreject Hrun Hemit Hm.
  destruct (show_emits_inv _ _ _ _ _ _ _ Hrun Hemit)
    as (l0 & [= <-] & _ & _ & _ & _ & Hw1).
  cbv zeta in Hw1.
  set (d := seenDescription (object_at l w)) in *.
  assert (Hobj : object_at l w1 !! "description" = Some (displayText d)).
  { rewrite Hw1.
    change (object_at l
              (store_object l
                 (<["description" := displayText d]> (prepared (object_at l w))) w)
            !! "description" = Some (displayText d)).
    by rewrite object_at_store, lookup_insert_eq. }
  rewrite showNotification_ref. unfold showNotification_on_object.
  rewrite Hobj; simpl.
  apply Forall_cons in Hreject as [He Hreject].
  apply Forall_cons in Hreject as [Hp Hreject].
  apply Forall_cons in Hreject as [Hr Hreject].
  apply Forall_cons in Hreject as [Hh _].
  unfold displayText. rewrite Hm.
  repeat case_match; simpl; by rewrite ?He, ?Hp, ?Hr, ?Hh.
Qed.

End ShowFurther.

(** ** From show to hide *)

Section ShowThenHide.
Context {imports : Imports}.

(** After a run of show that returned, on a payload object with a truthy
    description, the object records what [isAudioMuted] and the test for the
    end of the consultation found in the parsed description. *)
Lemma show_records_effects env l type w w1 :
  truthy (field l "description" w) = true ->
  showNotification env (ByRef l) type w = (w1, inr tt) ->
  let d := seenDescription (object_at l w) in
  field l "isMicMuted" w1 = micMuted d /\
  field l "isEndStream" w1 =
    JBool (is_str (deviceMessageType d) "CONSULTATION_ENDED").
Proof.
  intros Ht Hrun. cbv zeta. unfold field in Ht.
  rewrite showNotification_ref in Hrun.
  unfold showNotification_on_object, seenDescription in *.
  set (o := object_at l w) in *. rewrite Ht in *.
  destruct (JSON_parse _) as [parsed|]; [|discriminate]. simpl.
  destruct (nullish parsed); [discriminate|].
  unfold shown in Hrun.
  destruct (eligible _ _ _); injection Hrun as <-.
  - change (field l "isMicMuted"
              (store_object l
                 (<["description" := displayText parsed]> (restructured o parsed)) w)
            = micMuted parsed /\
            field l "isEndStream"
              (store_object l
                 (<["description" := displayText parsed]> (restructured o parsed)) w)
            = JBool (is_str (deviceMessageType parsed) "CONSULTATION_ENDED")).
    rewrite !field_store. unfold restructured.
    split; by repeat first [ rewrite lookup_insert_eq
                           | rewrite lookup_insert_ne by discriminate ].
  - rewrite !field_store. unfold restructured.
    split; by repeat first [ rewrite lookup_insert_eq
                           | rewrite lookup_insert_ne by discriminate ].
Qed.

(** X6. From show to hide: when a run of show returned on a payload object
    with a truthy description, hiding the notification with that object as
    its props mutes the local audio before the HideEvent when the parsed
    description is a PAUSE_SESSION, unmutes it for a RESUME_SESSION, and
    queues the navigation for a CONSULTATION_ENDED; it never does both, and
    for every other description it only emits the HideEvent. *)
Theorem show_then_hide env l type uid timeout stored_uid w w1 :
  truthy (field l "description" w) = true ->
  showNotification env (ByRef l) type w = (w1, inr tt) ->
  let d := seenDescription (object_at l w) in
  let paused := is_str (deviceMessageType d) "PAUSE_SESSION" in
  let resumed := is_str (deviceMessageType d) "RESUME_SESSION" in
  let ended := is_str (deviceMessageType d) "CONSULTATION_ENDED" in
  let snapshot :=
    {| n_props := ByRef l; n_timeout := timeout; n_uid := stored_uid |} in
  let hidden := hideNotification env uid (Some snapshot) w1 in
  snd hidden = inr tt /\
  dispatched (fst hidden) =
    (dispatched w1
     ++ (if paused then [muteLocal (JBool true) AUDIO]
         else if resumed then [muteLocal (JBool false) AUDIO]
         else [])
     ++ [HIDE_NOTIFICATION uid (conference env)])%list /\
  reactions (fst hidden) =
    (reactions w1 ++ (if ended then [appNavigate JUndefined] else []))%list /\
  (ended = true -> paused = false /\ resumed = false).
Proof.
  intros Ht Hrun. cbv zeta.
  destruct (show_records_effects _ _ _ _ _ Ht Hrun) as [Hmuted Hended].
  set (d := seenDescription (object_at l w)) in *.
  assert (Hfield : forall k a, field l k (set_dispatched a w1) = field l k w1)
    by reflexivity.
  unfold hideNotification; simpl.
  unfold micMuted in Hmuted.
  destruct (is_str (deviceMessageType d) "PAUSE_SESSION") eqn:Hp,
           (is_str (deviceMessageType d) "RESUME_SESSION") eqn:Hr,
           (is_str (deviceMessageType d) "CONSULTATION_ENDED") eqn:He.
  all: try discriminate (is_str_unique _ _ _ Hp He).
  all: try discriminate (is_str_unique _ _ _ Hr He).
  all: try discriminate (is_str_unique _ _ _ Hp Hr).
  all: repeat first [ rewrite bind_run | rewrite Hfield | rewrite Hmuted
                    | rewrite Hended | progress simpl ].
  all: repeat split; simpl; rewrite ?app_nil_r, <- ?app_assoc; try reflexivity.
  all: discriminate.
Qed.

End ShowThenHide.

(** ** The notification variants *)

Section VariantProperties.
Context {imports : Imports} {looks : Looks}.

(** What a run of show on a payload object leaves alone: every other
    object, and every property of the payload object but the five that
    [restructureProps] and the content resolution write. *)
Lemma show_object_frame env l type w :
  let w' := fst (showNotification env (ByRef l) type w) in
  (forall l', l' ≠ l -> heap w' !! l' = heap w !! l') /\
  (dispatched w' = dispatched w \/
   exists t u,
     dispatched w' = (dispatched w ++ [SHOW_NOTIFICATION (ByRef l) t u])%list) /\
  (forall k,
     k ∉ ["description"; "messageId"; "title"; "isEndStream"; "isMicMuted"] ->
     field l k w' = field l k w).
Proof.
  cbv zeta. rewrite showNotification_ref.
  unfold showNotification_on_object, shown.
  set (o := object_at l w).
  assert (Hheap : forall o' l',
            l' ≠ l -> heap (store_object l o' w) !! l' = heap w !! l').
  { intros o' l' Hne. unfold store_object; simpl. by apply lookup_insert_ne. }
  assert (Hkeep : forall k v,
            k ∉ ["description"; "messageId"; "title"; "isEndStream"; "isMicMuted"] ->
            default JUndefined (<["description" := v]> o !! k) = field l k w).
  { intros k v Hk. rewrite lookup_insert_ne; [reflexivity|].
    intros <-. apply Hk. set_solver. }
  assert (Hkeep' : forall k d v,
            k ∉ ["description"; "messageId"; "title"; "isEndStream"; "isMicMuted"] ->
            default JUndefined (<["description" := v]> (restructured o d) !! k)
            = field l k w).
  { intros k d v Hk. unfold restructured.
    rewrite !lookup_insert_ne; [reflexivity|..];
      intros <-; apply Hk; set_solver. }
  assert (Hkeep'' : forall k d,
            k ∉ ["description"; "messageId"; "title"; "isEndStream"; "isMicMuted"] ->
            default JUndefined (restructured o d !! k) = field l k w).
  { intros k d Hk. unfold restructured.
    rewrite !lookup_insert_ne; [reflexivity|..];
      intros <-; apply Hk; set_solver. }
  assert (Hsame : forall k a w0, field l k (set_dispatched a w0) = field l k w0)
    by reflexivity.
  repeat case_match; simpl; repeat split;
    first [ by left
          | right; by eexists _, _
          | intros l' Hne; by apply Hheap
          | by intros l' Hne
          | intros k Hk;
            first [ reflexivity
                  | rewrite ?Hsame, field_store;
                    first [ reflexivity | by apply Hkeep | by apply Hkeep'
                          | by apply Hkeep'' ] ] ].
Qed.

(** A variant, in general: show on the fresh copy that the object literal
    builds. *)
Lemma literal_show_frame extra env props type w :
  let copy := fresh (dom (heap w)) in
  let made := foldl (fun o kv => <[kv.1 := kv.2]> o) (spread props w) extra in
  let w' :=
    fst ((object_literal props extra ≫= fun c => showNotification env c type) w) in
  (forall l, l ∈ dom (heap w) -> heap w' !! l = heap w !! l) /\
  (dispatched w' = dispatched w \/
   exists t u,
     dispatched w' = (dispatched w ++ [SHOW_NOTIFICATION (ByRef copy) t u])%list) /\
  (forall k,
     k ∉ ["description"; "messageId"; "title"; "isEndStream"; "isMicMuted"] ->
     field copy k w' = default JUndefined (made !! k)).
Proof.
  cbv zeta. rewrite bind_run. unfold object_literal, new_object.
  set (copy := fresh (dom (heap w))).
  set (made := foldl _ _ extra).
  destruct (show_object_frame env copy type (store_object copy made w))
    as (Hheap & Hemit & Hkeep).
  split; [|split].
  - intros l Hl. rewrite Hheap.
    + unfold store_object; simpl. apply lookup_insert_ne.
      intros <-. by apply is_fresh in Hl.
    + intros ->. by apply is_fresh in Hl.
  - exact Hemit.
  - intros k Hk. rewrite (Hkeep k Hk). apply field_store.
Qed.

(** X7. The error, warning and message variants work on a copy: no object
    that existed before the call is changed (the caller's props included),
    an emitted ShowEvent carries the fresh copy, and the copy has the
    appearance of the variant whatever appearance the caller gave; the
    message variant also fixes the titleKey. *)
Theorem variants_work_on_a_copy env props type w :
  let copy := fresh (dom (heap w)) in
  let on_copy (w' : World) (appearance : JsVal) :=
    (forall l, l ∈ dom (heap w) -> heap w' !! l = heap w !! l) /\
    (dispatched w' = dispatched w \/
     exists t u,
       dispatched w' = (dispatched w ++ [SHOW_NOTIFICATION (ByRef copy) t u])%list) /\
    field copy "appearance" w' = appearance in
  (copy ∉ dom (heap w)) /\
  on_copy (fst (showErrorNotification env props type w)) NOTIFICATION_TYPE_ERROR /\
  on_copy (fst (showWarningNotification env props type w))
    NOTIFICATION_TYPE_WARNING /\
  on_copy (fst (showMessageNotification env props type w))
    NOTIFICATION_TYPE_NORMAL /\
  field copy "titleKey" (fst (showMessageNotification env props type w)) =
    JStr "notify.chatMessages".
Proof.
  cbv zeta. split; [apply is_fresh|].
  assert (Hk : forall k : string,
            k = "appearance" \/ k = "titleKey" ->
            k ∉ ["description"; "messageId"; "title"; "isEndStream"; "isMicMuted"]).
  { intros k [-> | ->] Hin;
      repeat (apply elem_of_cons in Hin as [Hin|Hin]; [discriminate|]);
      by apply elem_of_nil in Hin. }
  destruct (literal_show_frame [("appearance", NOTIFICATION_TYPE_ERROR)]
              env props type w) as (Hheap1 & Hemit1 & Hfield1).
  destruct (literal_show_frame [("appearance", NOTIFICATION_TYPE_WARNING)]
              env props type w) as (Hheap2 & Hemit2 & Hfield2).
  destruct (literal_show_frame
              [("concatText", JBool true);
               ("titleKey", JStr "notify.chatMessages");
               ("appearance", NOTIFICATION_TYPE_NORMAL);
               ("icon", NOTIFICATION_ICON_MESSAGE)]
              env props type w) as (Hheap3 & Hemit3 & Hfield3).
  pose proof (Hfield1 "appearance" (Hk _ (or_introl eq_refl))) as Ha1.
  pose proof (Hfield2 "appearance" (Hk _ (or_introl eq_refl))) as Ha2.
  pose proof (Hfield3 "appearance" (Hk _ (or_introl eq_refl))) as Ha3.
  pose proof (Hfield3 "titleKey" (Hk _ (or_intror eq_refl))) as Ht3.
  simpl in Ha1, Ha2, Ha3, Ht3.
  rewrite lookup_insert_eq in Ha1, Ha2.
  rewrite lookup_insert_ne, lookup_insert_eq in Ha3 by discriminate.
  rewrite !lookup_insert_ne, lookup_insert_eq in Ht3 by discriminate.
  repeat split; assumption.
Qed.

End VariantProperties.

(** ** Further properties of the timeout resolver *)

Section TimersFurther.
Context {imports : Imports}.

(** X8. Edge cases of the timeout resolver: a class that is no string
    (missing, null, a number, a boolean, an object) resolves to STICKY under
    every configuration; and under a configuration whose short override is
    falsy without being null or undefined (0, false, the empty string) the
    SHORT class resolves to that override as it is, so that
    [createTimeoutId] arms no timer for it. *)
Theorem resolver_edge_cases type cfg :
  match type with
  | JStr _ => True
  | _ => getNotificationTimeout type cfg = STICKY NOTIFICATION_TIMEOUT
  end /\
  forall v uid s,
    opt_member cfg "short" = v ->
    nullish v = false ->
    truthy v = false ->
    let short := JStr (TYPE_SHORT NOTIFICATION_TIMEOUT_TYPE) in
    getNotificationTimeout short cfg = v /\
    createTimeoutId (getNotificationTimeout short cfg) uid s = s.
Proof.
  split; [by destruct type|].
  intros v uid s Hv Hn Hf. cbv zeta.
  unfold getNotificationTimeout, override, coalesce.
  rewrite is_str_JStr, bool_decide_eq_true_2 by reflexivity.
  rewrite Hv, Hn. split; [reflexivity|].
  unfold createTimeoutId. by rewrite Hf.
Qed.

End TimersFurther.

(** ** Further properties of the batch buffers *)

Section BatchFurther.
Context {imports : Imports}.

Lemma batchProps_nonempty a rest threePlus two one :
  is_Some (batchProps (a :: rest) threePlus two one).
Proof.
  unfold batchProps.
  assert (Hpos : (Z.of_nat (length (a :: rest)) =? 0) = false)
    by (apply Z.eqb_neq; simpl length; lia).
  rewrite Hpos. simpl negb. repeat case_match; by eexists.
Qed.

(** X12. The outcome of a flush, for the joins and for the leaves: in a
    meeting above the threshold, or on an empty buffer, or with the feature
    flag unset, the flush returns and the buffer is empty; otherwise (names
    waiting, a meeting at or under the threshold, the flag set) it throws a
    TypeError and the buffer keeps its names.  In no case does a flush emit
    an action or touch the other buffer. *)
Theorem flush_outcome env w :
  let joined := _throttledNotifyParticipantConnected env w in
  let left := _throttledNotifyParticipantLeft env w in
  let stuck (silent : bool) (names : list string) :=
    match names with
    | [] => false
    | _ => negb silent && enabledFlag env
    end in
  (if stuck (participantCount env >? SILENT_JOIN_THRESHOLD)
            (joinedParticipantsNames w)
   then snd joined = inl TypeError /\
        joinedParticipantsNames (fst joined) = joinedParticipantsNames w
   else snd joined = inr tt /\ joinedParticipantsNames (fst joined) = []) /\
  leftParticipantsNames (fst joined) = leftParticipantsNames w /\
  dispatched (fst joined) = dispatched w /\
  (if stuck (participantCount env >? SILENT_LEFT_THRESHOLD)
            (leftParticipantsNames w)
   then snd left = inl TypeError /\
        leftParticipantsNames (fst left) = leftParticipantsNames w
   else snd left = inr tt /\ leftParticipantsNames (fst left) = []) /\
  joinedParticipantsNames (fst left) = joinedParticipantsNames w /\
  dispatched (fst left) = dispatched w.
Proof.
  cbv zeta. rewrite join_flush_run, left_flush_run.
  destruct (participantCount env >? SILENT_JOIN_THRESHOLD),
           (participantCount env >? SILENT_LEFT_THRESHOLD),
           (joinedParticipantsNames w) as [|a rest] eqn:Hj,
           (leftParticipantsNames w) as [|a' rest'] eqn:Hl,
           (enabledFlag env); simpl.
  all: try (destruct (batchProps_nonempty a rest
                        "notify.connectedThreePlusMembers"
                        "notify.connectedTwoMembers"
                        "notify.connectedOneMember") as [o ->]).
  all: try (destruct (batchProps_nonempty a' rest'
                        "notify.leftThreePlusMembers"
                        "notify.leftTwoMembers"
                        "notify.leftOneMember") as [o' ->]).
  all: simpl; rewrite ?Hj, ?Hl; by repeat split.
Qed.

Lemma joinBurst_run displayNames w :
  joinBurst displayNames w =
    (set_joined (joinedParticipantsNames w ++ displayNames) w, inr tt).
Proof.
  revert w. induction displayNames as [|a rest IH]; intros w; simpl.
  - rewrite app_nil_r. by destruct w.
  - rewrite bind_run. unfold showParticipantJoinedNotification at 1.
    rewrite bind_run; simpl. rewrite IH. unfold set_joined; simpl.
    by rewrite <- app_assoc.
Qed.

Lemma leftBurst_run displayNames w :
  leftBurst displayNames w =
    (set_left (leftParticipantsNames w ++ displayNames) w, inr tt).
Proof.
  revert w. induction displayNames as [|a rest IH]; intros w; simpl.
  - rewrite app_nil_r. by destruct w.
  - rewrite bind_run. unfold showParticipantLeftNotification at 1.
    rewrite bind_run; simpl. rewrite IH. unfold set_left; simpl.
    by rewrite <- app_assoc.
Qed.

(** X13. A burst of join events extends the join buffer by the names in
    the order of arrival and changes nothing else in the world, the leave
    buffer included (and likewise for a burst of leave events); a flush that
    follows in a meeting above the threshold drops all of them without an
    event. *)
Theorem burst_accumulates env displayNames w :
  let burst := fst (joinBurst displayNames w) in
  let leaves := fst (leftBurst displayNames w) in
  burst = set_joined (joinedParticipantsNames w ++ displayNames) w /\
  leaves = set_left (leftParticipantsNames w ++ displayNames) w /\
  ((participantCount env >? SILENT_JOIN_THRESHOLD) = true ->
   _throttledNotifyParticipantConnected env burst = (set_joined [] w, inr tt)).
Proof.
  cbv zeta. rewrite joinBurst_run, leftBurst_run. simpl.
  split; [reflexivity|]. split; [reflexivity|].
  intros Hsilent. rewrite join_flush_run, Hsilent. reflexivity.
Qed.

End BatchFurther.

(** ** Properties of the rest of the middleware *)

Section MiddlewareFurther.
Context {imports : Imports} {middlewareImports : MiddlewareImports}.

Lemma moderator_notification_run env w :
  (new_object {[ "titleKey" := JStr "notify.moderator" ]}
   ≫= fun notificationProps =>
        showNotification env notificationProps
          (JStr (TYPE_SHORT NOTIFICATION_TIMEOUT_TYPE))) w =
    let w1 :=
      store_object (fresh (dom (heap w)))
        {[ "titleKey" := JStr "notify.moderator" ]} w in
    if enabledFlag env then (w1, inl TypeError) else (w1, inr tt).
Proof.
  rewrite bind_run. unfold new_object at 1. cbv beta iota zeta.
  rewrite showNotification_no_description; [reflexivity|].
  rewrite object_at_store. apply lookup_singleton_ne. discriminate.
Qed.

(** X14. The middleware on one action.  A PARTICIPANT_UPDATED action never
    brings a notification to the store: when it promotes the local
    participant to moderator (the indicator not disabled, a former role that
    differs) the thunk it dispatches throws a TypeError under a set feature
    flag, so that the action is not handed to [next], and emits nothing
    under an unset flag; in every other case the action is handed on
    untouched.  A PARTICIPANTS_PANE_OPEN action dispatches the bare HideEvent
    for the raise-hand notification and is handed on. *)
Theorem middleware_outcome env state action w :
  let result := middleware env state action w in
  match action with
  | PARTICIPANT_UPDATED id role =>
      let promoted :=
        negb (truthy (disableModeratorIndicator state))
        && strict_equal (localParticipantId state) id
        && truthy (roleOf state id)
        && negb (strict_equal (roleOf state id) role)
        && strict_equal role PARTICIPANT_ROLE_MODERATOR in
      dispatched (fst result) = dispatched w /\
      snd result =
        (if promoted && enabledFlag env then inl TypeError else inr action)
  | PARTICIPANTS_PANE_OPEN =>
      snd result = inr action /\
      dispatched (fst result) =
        (dispatched w
         ++ [HIDE_NOTIFICATION RAISE_HAND_NOTIFICATION_ID (conference env)])%list /\
      reactions (fst result) = reactions w /\
      heap (fst result) = heap w
  | OTHER_ACTION _ => result = (w, inr action)
  end.
Proof.
  cbv zeta. destruct action as [id role| |type]; [|by repeat split|reflexivity].
  unfold middleware.
  destruct (truthy (disableModeratorIndicator state)); simpl;
    [split; reflexivity|].
  destruct (strict_equal (localParticipantId state) id); simpl;
    [|split; reflexivity].
  destruct (truthy (roleOf state id)); simpl;
    [|rewrite ?bind_run; split; reflexivity].
  destruct (strict_equal (roleOf state id) role); simpl;
    [rewrite ?bind_run; split; reflexivity|].
  destruct (strict_equal role PARTICIPANT_ROLE_MODERATOR); simpl;
    [|rewrite ?bind_run; split; reflexivity].
  rewrite bind_run, moderator_notification_run. cbv zeta.
  destruct (enabledFlag env); split; reflexivity.
Qed.

End MiddlewareFurther.

(** ** The further properties at concrete inputs *)

(** X2 at a description that is no JSON and at the description null. *)
Lemma show_malformed_description_witness :
  showNotification (imports := sample_imports) (sample_env true) (ByRef 1)
    JUndefined (world_with unparsable_payload)
  = (world_with unparsable_payload, inl SyntaxError) /\
  showNotification (imports := sample_imports) (sample_env true) (ByRef 1)
    JUndefined (world_with null_payload)
  = (store_object 1 (<["description" := JNull]> null_payload)
       (world_with null_payload), inl TypeError).
Proof.
  split.
  - apply (show_malformed_description (imports := sample_imports) (sample_env true)
             1%positive JUndefined (world_with unparsable_payload)
             unparsable_payload (JStr "not json")).
    + vm_compute. reflexivity.
    + vm_compute. reflexivity.
    + vm_compute. reflexivity.
    + left. vm_compute. reflexivity.
  - apply (show_malformed_description (imports := sample_imports) (sample_env true)
             1%positive JUndefined (world_with null_payload)
             null_payload (JStr "null")).
    + vm_compute. reflexivity.
    + vm_compute. reflexivity.
    + vm_compute. reflexivity.
    + right. vm_compute. reflexivity.
Defined.

(** X3 at the payload that was handled already. *)
Lemma show_skips_handled_witness :
  let result :=
    showNotification (imports := sample_imports) (sample_env true) (ByRef 1)
      JUndefined (world_with handled_payload) in
  snd result = inr tt /\
  dispatched (fst result) = dispatched (world_with handled_payload).
Proof.
  apply (show_skips_handled (imports := sample_imports) (sample_env true)
           1%positive JUndefined (world_with handled_payload) handled_payload
           (JStr (json "{'handledAt':1}")) (JObj [("handledAt", JNum 1)]));
    vm_compute; reflexivity.
Defined.

(** X4 at the pause request, under an allow-list that lists nothing. *)
Lemma allow_list_only_for_consultation_ended_witness :
  showNotification (imports := sample_imports)
    (with_notifications (Some []) (sample_env true)) (ByRef 1) JUndefined
    (world_with paused_payload)
  = showNotification (imports := sample_imports) (sample_env true) (ByRef 1)
      JUndefined (world_with paused_payload).
Proof.
  apply (allow_list_only_for_consultation_ended (imports := sample_imports)
           (sample_env true) (Some []) 1%positive JUndefined
           (world_with paused_payload)).
  vm_compute. reflexivity.
Defined.

(** X5 at the pause request, shown twice. *)
Lemma show_again_throws_witness :
  let w1 :=
    fst (showNotification (imports := sample_imports) (sample_env true) (ByRef 1)
           JUndefined (world_with paused_payload)) in
  showNotification (imports := sample_imports) (sample_env true) (ByRef 1)
    JUndefined w1 = (w1, inl SyntaxError).
Proof.
  apply (show_again_throws (imports := sample_imports) (sample_env true)
           1%positive JUndefined JUndefined (world_with paused_payload)
           (fst (showNotification (imports := sample_imports) (sample_env true)
                   (ByRef 1) JUndefined (world_with paused_payload)))
           (JNum 1000) (JStr "n1")).
  - repeat constructor.
  - vm_compute. reflexivity.
  - vm_compute. reflexivity.
  - vm_compute. reflexivity.
Defined.

(** X6 at the pause request: hiding it mutes the local audio. *)
Lemma show_then_hide_witness :
  let w1 :=
    fst (showNotification (imports := sample_imports) (sample_env true) (ByRef 1)
           JUndefined (world_with paused_payload)) in
  let snapshot :=
    {| n_props := ByRef 1; n_timeout := JNum 1000; n_uid := JStr "n1" |} in
  dispatched (fst (hideNotification (sample_env true) (JStr "n1") (Some snapshot) w1))
  = [SHOW_NOTIFICATION (ByRef 1) (JNum 1000) (JStr "n1");
     muteLocal (JBool true) AUDIO;
     HIDE_NOTIFICATION (JStr "n1") (JStr "room")].
Proof.
  destruct (show_then_hide (imports := sample_imports) (sample_env true)
              1%positive JUndefined (JStr "n1") (JNum 1000) (JStr "n1")
              (world_with paused_payload)
              (fst (showNotification (imports := sample_imports) (sample_env true)
                      (ByRef 1) JUndefined (world_with paused_payload))))
    as (_ & Hd & _).
  - vm_compute. reflexivity.
  - vm_compute. reflexivity.
  - exact Hd.
Defined.

(** X8 at a class left out, under a short override of 0. *)
Lemma resolver_edge_cases_witness :
  getNotificationTimeout (imports := sample_imports) JUndefined
    (JObj [("short", JNum 0)]) = JBool false /\
  getNotificationTimeout (imports := sample_imports) (JStr "short")
    (JObj [("short", JNum 0)]) = JNum 0 /\
  createTimeoutId
    (getNotificationTimeout (imports := sample_imports) (JStr "short")
       (JObj [("short", JNum 0)])) "n1" (initial empty_world)
  = initial empty_world.
Proof.
  destruct (resolver_edge_cases (imports := sample_imports) JUndefined
              (JObj [("short", JNum 0)])) as [Hsticky Hshort].
  split; [exact Hsticky|].
  apply (Hshort (JNum 0) "n1" (initial empty_world)); reflexivity.
Defined.

(** X13 at three arrivals in a crowded meeting. *)
Lemma burst_accumulates_witness :
  joinedParticipantsNames
    (fst (joinBurst ["A"; "B"; "C"] empty_world)) = ["A"; "B"; "C"] /\
  _throttledNotifyParticipantConnected (imports := sample_imports) crowded_env
    (fst (joinBurst ["A"; "B"; "C"] empty_world)) = (empty_world, inr tt).
Proof.
  destruct (burst_accumulates (imports := sample_imports) crowded_env
              ["A"; "B"; "C"] empty_world) as (Hburst & _ & Hflush).
  split.
  - rewrite Hburst. reflexivity.
  - apply Hflush. reflexivity.
Defined.
